(** * notion_mcp: the markdown/block conversion layer and its helpers

    A shallow embedding of the pure functions of [notion_mcp.py]
    ([markdown_to_blocks], [blocks_to_markdown], [extract_text],
    [extract_title]) and of the property coercion loop of the
    [notion_create_database_item] branch of [call_tool].

    Python values are embedded as a JSON-like inductive type; a [str] is a
    list of Unicode code points; a [dict] is an association list in
    insertion order; a call that raises is [None]. *)

From Stdlib Require Import List NArith ZArith String Ascii Bool Lia.
From Stdlib Require Import Floats.PrimFloat.
Import ListNotations.

Local Open Scope N_scope.
Local Open Scope list_scope.

(** ** Python strings *)

Module Str.

(** A Python [str] is a sequence of code points. *)
Definition char := N.
Definition str := list char.

(** An ASCII literal of the source, as a [str]. *)
Definition lit (s : string) : str :=
  map N_of_ascii (list_ascii_of_string s).

Definition newline : char := 10.

Fixpoint eqb (s t : str) : bool :=
  match s, t with
  | [], [] => true
  | a :: s', b :: t' => (a =? b) && eqb s' t'
  | _, _ => false
  end.

(** [c.isspace()]: the code points Python counts as whitespace. *)
Definition isspace (c : char) : bool :=
  ((9 <=? c) && (c <=? 13)) || ((28 <=? c) && (c <=? 32))
  || (c =? 133) || (c =? 160) || (c =? 5760)
  || ((8192 <=? c) && (c <=? 8202))
  || (c =? 8232) || (c =? 8233) || (c =? 8239) || (c =? 8287)
  || (c =? 12288).

(** [s.rstrip()]: drop the trailing run of whitespace. *)
Fixpoint rstrip (s : str) : str :=
  match s with
  | [] => []
  | c :: t =>
      match rstrip t with
      | [] => if isspace c then [] else [c]
      | t' => c :: t'
      end
  end.

(** [s.split(sep)] for a one-character separator: never empty. *)
Fixpoint split (sep : char) (s : str) : list str :=
  match s with
  | [] => [[]]
  | c :: t =>
      if c =? sep then [] :: split sep t
      else match split sep t with
           | [] => [[c]]
           | l :: ls => (c :: l) :: ls
           end
  end.

(** [sep.join(parts)] *)
Fixpoint join (sep : str) (parts : list str) : str :=
  match parts with
  | [] => []
  | p :: rest =>
      match rest with
      | [] => p
      | _ :: _ => p ++ sep ++ join sep rest
      end
  end.

(** [s.startswith(p)] *)
Fixpoint startswith (s p : str) {struct p} : bool :=
  match p, s with
  | [], _ => true
  | a :: p', b :: s' => (a =? b) && startswith s' p'
  | _ :: _, [] => false
  end.

(** [s[n:]] *)
Definition from (n : nat) (s : str) : str := skipn n s.

End Str.

Import Str.

(** ** Python values, as they come out of [json] *)

#[local] Set Warnings "-register-all".

Inductive json : Type :=
| JNull
| JBool (b : bool)
| JInt (z : Z)
| JFloat (f : float)
| JStr (s : str)
| JList (l : list json)
| JDict (d : list (str * json)).

Definition dict := list (str * json).

Module Dict.

(** The entry stored under [k], if any. *)
Fixpoint lookup (k : str) (d : dict) : option json :=
  match d with
  | [] => None
  | (k', v) :: d' => if Str.eqb k' k then Some v else lookup k d'
  end.

(** [d[k] = v]: an existing key keeps its place, a new one goes last. *)
Fixpoint set (k : str) (v : json) (d : dict) : dict :=
  match d with
  | [] => [(k, v)]
  | (k', v') :: d' =>
      if Str.eqb k' k then (k', v) :: d' else (k', v') :: set k v d'
  end.

Definition keys (d : dict) : list str := map fst d.

End Dict.

(** [x == "..."] for a value [x] of any type. *)
Definition is_str (x : json) (s : str) : bool :=
  match x with
  | JStr t => Str.eqb t s
  | _ => false
  end.

(** [x.get(k, default)]: raises unless [x] is a dict. *)
Definition get (x : json) (k : str) (default : json) : option json :=
  match x with
  | JDict d =>
      match Dict.lookup k d with
      | Some v => Some v
      | None => Some default
      end
  | _ => None
  end.

(** ** markdown_to_blocks *)

Definition text_run (content : str) : json :=
  JDict [(lit "type", JStr (lit "text"));
         (lit "text", JDict [(lit "content", JStr content)])].

(** [{"type": ty, ty: {"rich_text": [{"type": "text", "text": {"content": c}}]}}] *)
Definition block (ty : str) (content : str) : json :=
  JDict [(lit "type", JStr ty);
         (ty, JDict [(lit "rich_text", JList [text_run content])])].

(** One turn of the loop over the lines: [blocks] after [line] is handled. *)
Definition md_line (blocks : list json) (line : str) : list json :=
  let line := rstrip line in
  match line with
  | [] => blocks
  | _ :: _ =>
      if startswith line (lit "# ") then
        blocks ++ [block (lit "heading_1") (from 2 line)]
      else if startswith line (lit "## ") then
        blocks ++ [block (lit "heading_2") (from 3 line)]
      else if startswith line (lit "### ") then
        blocks ++ [block (lit "heading_3") (from 4 line)]
      else if startswith line (lit "- ") || startswith line (lit "* ") then
        blocks ++ [block (lit "bulleted_list_item") (from 2 line)]
      else if startswith line (lit "```") then
        blocks
      else
        blocks ++ [block (lit "paragraph") line]
  end.

Definition markdown_to_blocks (content : str) : list json :=
  fold_left md_line (split newline content) [].

(** ** extract_text *)

(** Calls that may raise: [None] stands for the exception. *)
Notation "x <- e ;; k" :=
  (match e with Some x => k | None => None end)
  (at level 61, e at next level, right associativity, only parsing).

Fixpoint traverse {A B : Type} (f : A -> option B) (l : list A)
  : option (list B) :=
  match l with
  | [] => Some []
  | a :: l' => b <- f a ;; bs <- traverse f l' ;; Some (b :: bs)
  end.

(** [for t in x]: a list yields its items, a string its characters, a dict
    its keys; anything else is not iterable. *)
Definition iterate (x : json) : option (list json) :=
  match x with
  | JList l => Some l
  | JStr s => Some (map (fun c => JStr [c]) s)
  | JDict d => Some (map (fun kv => JStr (fst kv)) d)
  | _ => None
  end.

(** An operand of [''.join] has to be a [str]. *)
Definition as_str (x : json) : option str :=
  match x with
  | JStr s => Some s
  | _ => None
  end.

Definition extract_text (rich_text : json) : option str :=
  ts <- iterate rich_text ;;
  parts <- traverse (fun t => get t (lit "plain_text") (JStr [])) ts ;;
  strs <- traverse as_str parts ;;
  Some (List.concat strs).

(** ** extract_title *)

Fixpoint extract_title (properties : dict) : option str :=
  match properties with
  | [] => Some (lit "Untitled")
  | (_, value) :: rest =>
      ty <- get value (lit "type") JNull ;;
      if is_str ty (lit "title") then
        title <- get value (lit "title") (JList []) ;;
        extract_text title
      else extract_title rest
  end.

(** ** blocks_to_markdown *)

(** Truth value of [x] in a conditional. *)
Definition truthy (x : json) : bool :=
  match x with
  | JNull => false
  | JBool b => b
  | JInt z => negb (z =? 0)%Z
  | JFloat f => negb (PrimFloat.eqb f PrimFloat.zero)
  | JStr s => negb (Nat.eqb (List.length s) 0)
  | JList l => negb (Nat.eqb (List.length l) 0)
  | JDict d => negb (Nat.eqb (List.length d) 0)
  end.

Section Rendering.

(** What an f-string puts for a value that is not a [str] (its [format]);
    the renderer only meets it for a [language] that is not a string. *)
Variable format_value : json -> str.

Definition fmt (x : json) : str :=
  match x with
  | JStr s => s
  | _ => format_value x
  end.

(** [extract_text(block.get(ty, {}).get("rich_text", []))] *)
Definition body_text (block : json) (ty : str) : option str :=
  body <- get block ty (JDict []) ;;
  rich_text <- get body (lit "rich_text") (JList []) ;;
  extract_text rich_text.

(** One turn of the loop over the blocks: [lines] after [block]. *)
Definition md_block (lines : list str) (block : json) : option (list str) :=
  block_type <- get block (lit "type") (JStr []) ;;
  if is_str block_type (lit "paragraph") then
    text <- body_text block (lit "paragraph") ;;
    Some (lines ++ [text])
  else if is_str block_type (lit "heading_1") then
    text <- body_text block (lit "heading_1") ;;
    Some (lines ++ [lit "# " ++ text])
  else if is_str block_type (lit "heading_2") then
    text <- body_text block (lit "heading_2") ;;
    Some (lines ++ [lit "## " ++ text])
  else if is_str block_type (lit "heading_3") then
    text <- body_text block (lit "heading_3") ;;
    Some (lines ++ [lit "### " ++ text])
  else if is_str block_type (lit "bulleted_list_item") then
    text <- body_text block (lit "bulleted_list_item") ;;
    Some (lines ++ [lit "- " ++ text])
  else if is_str block_type (lit "numbered_list_item") then
    text <- body_text block (lit "numbered_list_item") ;;
    Some (lines ++ [lit "1. " ++ text])
  else if is_str block_type (lit "code") then
    text <- body_text block (lit "code") ;;
    body <- get block (lit "code") (JDict []) ;;
    lang <- get body (lit "language") (JStr []) ;;
    Some (lines ++ [lit "```" ++ fmt lang ++ [newline] ++ text
                      ++ [newline] ++ lit "```"])
  else if is_str block_type (lit "quote") then
    text <- body_text block (lit "quote") ;;
    Some (lines ++ [lit "> " ++ text])
  else if is_str block_type (lit "to_do") then
    text <- body_text block (lit "to_do") ;;
    body <- get block (lit "to_do") (JDict []) ;;
    checked <- get body (lit "checked") (JBool false) ;;
    Some (lines ++ [lit "- [" ++ (if truthy checked then lit "x" else lit " ")
                      ++ lit "] " ++ text])
  else Some lines.

Definition md_blocks (blocks : list json) : option (list str) :=
  fold_left (fun acc block => lines <- acc ;; md_block lines block)
            blocks (Some []).

Definition blocks_to_markdown (blocks : list json) : option str :=
  lines <- md_blocks blocks ;;
  Some (join [newline] lines).

End Rendering.

(** ** Property coercion of notion_create_database_item *)

Definition content_of (value : json) : json :=
  JList [JDict [(lit "text", JDict [(lit "content", value)])]].

(** One turn of the loop over [props.items()]. *)
Definition coerce_item (notion_props : dict) (item : str * json) : dict :=
  let (key, value) := item in
  match value with
  | JStr _ =>
      match notion_props with
      | [] => Dict.set key (JDict [(lit "title", content_of value)]) notion_props
      | _ :: _ =>
          Dict.set key (JDict [(lit "rich_text", content_of value)]) notion_props
      end
  | JBool _ => Dict.set key (JDict [(lit "checkbox", value)]) notion_props
  | JInt _ | JFloat _ => Dict.set key (JDict [(lit "number", value)]) notion_props
  | _ => notion_props
  end.

Definition notion_props (props : dict) : dict :=
  fold_left coerce_item props [].

(** ** Vocabulary of the statements *)

(** The blocks one line contributes to the output. *)
Definition line_blocks (line : str) : list json := md_line [] line.

(** A line that is empty once its trailing whitespace is gone. *)
Definition blank (line : str) : Prop := rstrip line = [].

(** The prefixes the parser gives a meaning to. *)
Definition prefixes : list str :=
  [lit "# "; lit "## "; lit "### "; lit "- "; lit "* "; lit "```"].

Definition has_prefix (line : str) : bool :=
  existsb (startswith line) prefixes.

(** What a line contributes, by the form of its stripped text [s]. *)
Inductive line_view (s : str) : list json -> Prop :=
| view_blank : s = [] -> line_view s []
| view_fence : startswith s (lit "```") = true -> line_view s []
| view_h1 c : s = lit "# " ++ c -> line_view s [block (lit "heading_1") c]
| view_h2 c : s = lit "## " ++ c -> line_view s [block (lit "heading_2") c]
| view_h3 c : s = lit "### " ++ c -> line_view s [block (lit "heading_3") c]
| view_dash c :
    s = lit "- " ++ c -> line_view s [block (lit "bulleted_list_item") c]
| view_star c :
    s = lit "* " ++ c -> line_view s [block (lit "bulleted_list_item") c]
| view_par :
    s <> [] -> has_prefix s = false -> line_view s [block (lit "paragraph") s].

(** The block types [markdown_to_blocks] writes. *)
Definition emitted_kinds : list str :=
  [lit "heading_1"; lit "heading_2"; lit "heading_3";
   lit "bulleted_list_item"; lit "paragraph"].

(** The block types [blocks_to_markdown] renders. *)
Definition kinds : list str :=
  [lit "paragraph"; lit "heading_1"; lit "heading_2"; lit "heading_3";
   lit "bulleted_list_item"; lit "numbered_list_item"; lit "code";
   lit "quote"; lit "to_do"].

Definition recognized (block_type : json) : bool :=
  existsb (is_str block_type) kinds.

(** The loop body of [markdown_to_blocks] with its tests in the order of the
    specification: ["### "] before ["## "] before ["# "], then the list
    markers, the fence, the paragraph. *)
Definition md_line_spec (blocks : list json) (line : str) : list json :=
  let line := rstrip line in
  match line with
  | [] => blocks
  | _ :: _ =>
      if startswith line (lit "### ") then
        blocks ++ [block (lit "heading_3") (from 4 line)]
      else if startswith line (lit "## ") then
        blocks ++ [block (lit "heading_2") (from 3 line)]
      else if startswith line (lit "# ") then
        blocks ++ [block (lit "heading_1") (from 2 line)]
      else if startswith line (lit "- ") || startswith line (lit "* ") then
        blocks ++ [block (lit "bulleted_list_item") (from 2 line)]
      else if startswith line (lit "```") then
        blocks
      else
        blocks ++ [block (lit "paragraph") line]
  end.

(** *** The shape of what the service returns *)

Definition is_record (x : json) : bool :=
  match x with
  | JDict _ => true
  | _ => false
  end.

(** The plain text of a run, empty when the field is absent. *)
Definition plain (t : json) : str :=
  match t with
  | JDict d =>
      match Dict.lookup (lit "plain_text") d with
      | Some (JStr s) => s
      | _ => []
      end
  | _ => []
  end.

(** A run: a record whose [plain_text], when present, is a string. *)
Definition run_shape (t : json) : bool :=
  match t with
  | JDict d =>
      match Dict.lookup (lit "plain_text") d with
      | Some (JStr _) | None => true
      | Some _ => false
      end
  | _ => false
  end.

(** A type-named sub-object: a record whose [rich_text], when present, is
    an array of runs. *)
Definition body_shape (body : json) : bool :=
  match body with
  | JDict d =>
      match Dict.lookup (lit "rich_text") d with
      | None => true
      | Some (JList runs) => forallb run_shape runs
      | Some _ => false
      end
  | _ => false
  end.

(** A block record: every field is optional; the sub-object named by a
    recognized [type], when present, has the shape above. *)
Definition block_shape (b : json) : bool :=
  match b with
  | JDict d =>
      match Dict.lookup (lit "type") d with
      | Some (JStr ty) =>
          if recognized (JStr ty) then
            match Dict.lookup ty d with
            | None => true
            | Some body => body_shape body
            end
          else true
      | _ => true
      end
  | _ => false
  end.

(** [block.get("type", "")] of a block record. *)
Definition type_of (d : dict) : json :=
  match Dict.lookup (lit "type") d with
  | Some t => t
  | None => JStr []
  end.

(** The block [d] gives no [field] in its sub-object [ty]: the sub-object is
    absent, or it is a record without that field. *)
Definition missing (d : dict) (ty field : str) : Prop :=
  match Dict.lookup ty d with
  | None => True
  | Some (JDict body) => Dict.lookup field body = None
  | Some _ => False
  end.

(** A property whose declared type is ["title"]. *)
Definition title_typed (value : json) : bool :=
  match value with
  | JDict d =>
      match Dict.lookup (lit "type") d with
      | Some ty => is_str ty (lit "title")
      | None => false
      end
  | _ => false
  end.

(** An entry the title scan passes over: a record not declared a title. *)
Definition passed_over (entry : str * json) : Prop :=
  is_record (snd entry) = true /\ title_typed (snd entry) = false.

(** *** A block on its way through the service *)

(** A run sent as [{"type": "text", "text": {"content": c}}] comes back with
    [c] under ["plain_text"] as well. *)
Definition returned_run (t : json) : json :=
  match t with
  | JDict d =>
      match Dict.lookup (lit "text") d with
      | Some (JDict tx) =>
          match Dict.lookup (lit "content") tx with
          | Some c => JDict (Dict.set (lit "plain_text") c d)
          | None => t
          end
      | _ => t
      end
  | _ => t
  end.

Definition returned_body (body : json) : json :=
  match body with
  | JDict d =>
      match Dict.lookup (lit "rich_text") d with
      | Some (JList runs) =>
          JDict (Dict.set (lit "rich_text") (JList (map returned_run runs)) d)
      | _ => body
      end
  | _ => body
  end.

(** A block as the service hands it back after storing it: the same block,
    each run of its typed sub-object carrying its plain text. *)
Definition returned (b : json) : json :=
  match b with
  | JDict d =>
      match Dict.lookup (lit "type") d with
      | Some (JStr ty) =>
          match Dict.lookup ty d with
          | Some body => JDict (Dict.set ty (returned_body body) d)
          | None => b
          end
      | _ => b
      end
  | _ => b
  end.

(** Parse, store, read back, render. *)
Definition round_trip (format_value : json -> str) (doc : str) : option str :=
  blocks_to_markdown format_value (map returned (markdown_to_blocks doc)).

(** The lines one line of the document comes back as. *)
Definition line_round_trip (format_value : json -> str) (line : str)
  : option (list str) :=
  md_blocks format_value (map returned (line_blocks line)).

(** A rendered line that comes back as itself. *)
Definition fixed_line (format_value : json -> str) (l : str) : Prop :=
  ~ In newline l /\ line_round_trip format_value l = Some [l].

(** *** Property coercion in closed form *)

(** The values the coercion has a branch for. *)
Definition coercible (value : json) : bool :=
  match value with
  | JStr _ | JBool _ | JInt _ | JFloat _ => true
  | _ => false
  end.

(** The properties written for [props] when [first] tells whether nothing
    has been written so far. *)
Fixpoint coerced (first : bool) (props : dict) : dict :=
  match props with
  | [] => []
  | (key, value) :: rest =>
      match value with
      | JStr _ =>
          (key, JDict [(if first then lit "title" else lit "rich_text",
                        content_of value)]) :: coerced false rest
      | JBool _ => (key, JDict [(lit "checkbox", value)]) :: coerced false rest
      | JInt _ | JFloat _ =>
          (key, JDict [(lit "number", value)]) :: coerced false rest
      | _ => coerced first rest
      end
  end.

(** ** Around the conversions: what [call_tool] does with its arguments *)

Definition hyphen : char := 45.

(** [s.replace(old, new)] for a one-character [old]. *)
Definition str_replace (old : char) (new : str) (s : str) : str :=
  flat_map (fun c => if c =? old then new else [c]) s.

(** [arguments.get(name, "").replace("-", "")]: the id a tool is called
    with; raises when the argument is there and is not a string. *)
Definition id_argument (arguments : dict) (name : str) : option str :=
  x <- get (JDict arguments) name (JStr []) ;;
  match x with
  | JStr s => Some (str_replace hyphen [] s)
  | _ => None
  end.

(** notion_create_page: what [payload["children"]] is set to, if it is set:
    [content = arguments.get("content", "")], then
    [if content: payload["children"] = markdown_to_blocks(content)]; a
    content that is true and no string has no [split]. *)
Definition page_children (arguments : dict) : option (option (list json)) :=
  content <- get (JDict arguments) (lit "content") (JStr []) ;;
  if truthy content then
    match content with
    | JStr s => Some (Some (markdown_to_blocks s))
    | _ => None
    end
  else Some None.

(** notion_append_content: the blocks sent,
    [markdown_to_blocks(arguments.get("content", ""))]. *)
Definition appended_blocks (arguments : dict) : option (list json) :=
  content <- get (JDict arguments) (lit "content") (JStr []) ;;
  match content with
  | JStr s => Some (markdown_to_blocks s)
  | _ => None
  end.

(** ** Vocabulary of the further statements *)

(** The markers of [markdown_to_blocks] with the block type each gives. *)
Definition markers : list (str * str) :=
  [(lit "# ", lit "heading_1"); (lit "## ", lit "heading_2");
   (lit "### ", lit "heading_3"); (lit "- ", lit "bulleted_list_item");
   (lit "* ", lit "bulleted_list_item")].

(** The markers without their space. *)
Definition bare_markers : list str :=
  [lit "#"; lit "##"; lit "###"; lit "-"; lit "*"].

(** A line that adds a block: not blank and no fence. *)
Definition emits (line : str) : bool :=
  match rstrip line with
  | [] => false
  | _ :: _ => negb (startswith (rstrip line) (lit "```"))
  end.

(** The line a line of the document comes back as from the service: a
    blank line and a fence are gone, a star item is a dash item, any other
    line is itself without its trailing whitespace. *)
Definition normal_line (line : str) : list str :=
  let s := rstrip line in
  match s with
  | [] => []
  | _ :: _ =>
      if startswith s (lit "* ") then [lit "- " ++ from 2 s]
      else if startswith s (lit "```") then []
      else [s]
  end.


(** The field [k] of the sub-object [ty] of the block [d], or [default]. *)
Definition field (d : dict) (ty k : str) (default : json) : json :=
  match Dict.lookup ty d with
  | Some (JDict body) =>
      match Dict.lookup k body with
      | Some v => v
      | None => default
      end
  | _ => default
  end.

(** The text of the block [d] of type [ty]: the plain texts of its runs. *)
Definition text_of (d : dict) (ty : str) : str :=
  match field d ty (lit "rich_text") (JList []) with
  | JList runs => List.concat (map plain runs)
  | _ => []
  end.

(** The kinds rendered as a fixed prefix followed by the text. *)
Definition prefixed_kinds : list (str * str) :=
  [(lit "paragraph", []); (lit "heading_1", lit "# ");
   (lit "heading_2", lit "## "); (lit "heading_3", lit "### ");
   (lit "bulleted_list_item", lit "- ");
   (lit "numbered_list_item", lit "1. "); (lit "quote", lit "> ")].

(** A written property that holds a title. *)
Definition titled (entry : str * json) : bool :=
  match snd entry with
  | JDict d =>
      match Dict.lookup (lit "title") d with
      | Some _ => true
      | None => false
      end
  | _ => false
  end.

(** ** Facts about strings *)

Section StrFacts.

Lemma str_eqb_eq (s t : str) : Str.eqb s t = true <-> s = t.
Proof.
  revert t; induction s as [|a s IH]; intros [|b t]; simpl;
    try (split; [discriminate | congruence]); try tauto.
  rewrite andb_true_iff, N.eqb_eq, IH.
  split; [intros [-> ->]; reflexivity | intros [= -> ->]; auto].
Qed.

Lemma rstrip_nil_iff (s : str) : rstrip s = [] <-> forallb isspace s = true.
Proof.
  induction s as [|c s IH]; simpl; [tauto|].
  destruct (rstrip s) as [|x r].
  - destruct (isspace c); simpl; [tauto | split; [discriminate|]].
    discriminate.
  - split; [discriminate|]. rewrite andb_true_iff. intros [_ H].
    apply IH in H. discriminate.
Qed.

Lemma rstrip_app (a b : str) :
  rstrip (a ++ b)
  = match rstrip b with [] => rstrip a | _ :: _ => a ++ rstrip b end.
Proof.
  induction a as [|c a IH]; simpl.
  - now destruct (rstrip b).
  - rewrite IH. destruct (rstrip b) as [|x r]; [reflexivity|].
    now destruct a.
Qed.

Lemma rstrip_decompose (s : str) :
  exists w, s = rstrip s ++ w /\ forallb isspace w = true.
Proof.
  induction s as [|c s (w & E & W)]; simpl.
  - now exists [].
  - destruct (rstrip s) as [|x r] eqn:R.
    + destruct (isspace c) eqn:C.
      * exists (c :: s). split; [reflexivity|]. simpl. rewrite C.
        now apply rstrip_nil_iff.
      * exists w. simpl in E. subst w. split; [reflexivity | assumption].
    + exists w. split; [|assumption]. simpl in E |- *. congruence.
Qed.

Lemma rstrip_idem (s : str) : rstrip (rstrip s) = rstrip s.
Proof.
  induction s as [|c s IH]; simpl; [reflexivity|].
  destruct (rstrip s) as [|x r] eqn:R.
  - destruct (isspace c) eqn:C; simpl; [reflexivity | now rewrite C].
  - change (rstrip (c :: x :: r)) with
      (match rstrip (x :: r) with
       | [] => if isspace c then [] else [c]
       | t' => c :: t' end).
    now rewrite IH.
Qed.

Lemma rstrip_In (s : str) (c : char) : In c (rstrip s) -> In c s.
Proof.
  destruct (rstrip_decompose s) as (w & E & _). intros H.
  rewrite E. apply in_or_app. now left.
Qed.

(** A suffix of a stripped string is stripped. *)
Lemma rstrip_suffix (a b : str) :
  rstrip (a ++ b) = a ++ b -> rstrip b = b.
Proof.
  rewrite rstrip_app. destruct (rstrip b) as [|x r] eqn:R.
  - intros H. destruct (rstrip_decompose a) as (w & E & _).
    assert (L : List.length (rstrip a) = List.length (a ++ b)) by now rewrite H.
    rewrite E in L at 2. rewrite !length_app in L.
    destruct b; [reflexivity | simpl in L; lia].
  - intros H. now apply app_inv_head in H.
Qed.

Lemma startswith_iff (s p : str) :
  startswith s p = true <-> s = p ++ from (List.length p) s.
Proof.
  unfold from. revert s; induction p as [|a p IH]; intros s; simpl.
  - split; reflexivity.
  - destruct s as [|b s]; [split; discriminate|].
    rewrite andb_true_iff, N.eqb_eq, IH. simpl.
    split; [intros [-> H]; now rewrite <- H | intros [= -> H]; auto].
Qed.

Lemma startswith_app_l (s w p : str) :
  startswith s p = true -> startswith (s ++ w) p = true.
Proof.
  revert s; induction p as [|a p IH]; intros [|b s]; simpl; auto;
    try discriminate.
  rewrite !andb_true_iff. intros [? ?]; auto.
Qed.

Lemma startswith_rstrip (s p : str) :
  startswith (rstrip s) p = true -> startswith s p = true.
Proof.
  destruct (rstrip_decompose s) as (w & E & _). intros H.
  rewrite E. now apply startswith_app_l.
Qed.

Lemma split_not_nil (sep : char) (s : str) : split sep s <> [].
Proof.
  induction s as [|c s IH]; simpl; [discriminate|].
  destruct (c =? sep); [discriminate|].
  now destruct (split sep s).
Qed.

Lemma split_app (sep : char) (a b : str) :
  split sep (a ++ sep :: b) = split sep a ++ split sep b.
Proof.
  induction a as [|c a IH]; simpl.
  - now rewrite N.eqb_refl.
  - rewrite IH. destruct (c =? sep); [reflexivity|].
    pose proof (split_not_nil sep a).
    now destruct (split sep a).
Qed.

Lemma split_single (sep : char) (s : str) :
  ~ In sep s -> split sep s = [s].
Proof.
  induction s as [|c s IH]; simpl; [reflexivity|].
  intros H. destruct (c =? sep) eqn:E.
  - apply N.eqb_eq in E. tauto.
  - rewrite IH by tauto. reflexivity.
Qed.

Lemma split_no_sep (sep : char) (s : str) :
  Forall (fun l => ~ In sep l) (split sep s).
Proof.
  induction s as [|c s IH]; simpl.
  - constructor; auto.
  - destruct (c =? sep) eqn:E; [constructor; auto|].
    apply N.eqb_neq in E.
    destruct (split sep s) as [|l ls]; inversion IH; subst;
      constructor; auto; simpl; intuition congruence.
Qed.

Lemma split_join (sep : char) (parts : list str) :
  parts <> [] -> Forall (fun l => ~ In sep l) parts ->
  split sep (join [sep] parts) = parts.
Proof.
  induction parts as [|p rest IH]; [congruence|].
  intros _ H. inversion H as [|? ? Hp Hrest]; subst.
  destruct rest as [|q rest].
  - simpl. now apply split_single.
  - change (join [sep] (p :: q :: rest))
      with (p ++ sep :: join [sep] (q :: rest)).
    rewrite split_app, split_single, IH by (auto; discriminate).
    reflexivity.
Qed.

Lemma split_In (sep : char) (s l : str) (c : char) :
  In l (split sep s) -> In c l -> In c s.
Proof.
  revert l; induction s as [|x s IH]; simpl; intros l.
  - intros [<-|[]]; auto.
  - destruct (x =? sep).
    + intros [<-|H] Hc; [destruct Hc | eauto].
    + destruct (split sep s) as [|l0 ls]; simpl.
      * intros [<-|[]] [->|[]]; auto.
      * intros [<-|H] Hc.
        -- destruct Hc as [->|Hc]; [auto | right; apply (IH l0); simpl; auto].
        -- right. apply (IH l); simpl; auto.
Qed.

End StrFacts.

(** ** markdown_to_blocks, line by line *)

Section Parsing.

Lemma md_line_app (blocks : list json) (line : str) :
  md_line blocks line = blocks ++ line_blocks line.
Proof.
  unfold line_blocks, md_line.
  destruct (rstrip line); [now rewrite app_nil_r|].
  repeat match goal with
         | |- context [if ?b then _ else _] => destruct b
         end; simpl; now rewrite ?app_nil_r.
Qed.

Lemma fold_md_line (lines : list str) (blocks : list json) :
  fold_left md_line lines blocks = blocks ++ flat_map line_blocks lines.
Proof.
  revert blocks; induction lines as [|l lines IH]; intros blocks; simpl.
  - now rewrite app_nil_r.
  - now rewrite IH, md_line_app, <- app_assoc.
Qed.

Lemma markdown_to_blocks_lines (content : str) :
  markdown_to_blocks content
  = flat_map line_blocks (split newline content).
Proof. unfold markdown_to_blocks. now rewrite fold_md_line. Qed.

(** Lines are classified one by one: the blocks of a document are those of
    its part before a newline followed by those of the part after it. *)
Lemma markdown_to_blocks_app (a b : str) :
  markdown_to_blocks (a ++ newline :: b)
  = markdown_to_blocks a ++ markdown_to_blocks b.
Proof.
  now rewrite !markdown_to_blocks_lines, split_app, flat_map_app.
Qed.

Lemma markdown_to_blocks_line (line : str) :
  ~ In newline line -> markdown_to_blocks line = line_blocks line.
Proof.
  intros H. rewrite markdown_to_blocks_lines, split_single by assumption.
  simpl. now rewrite app_nil_r.
Qed.

Lemma line_blocks_blank (line : str) : blank line -> line_blocks line = [].
Proof. unfold blank, line_blocks, md_line. now intros ->. Qed.

Lemma blank_split (content line : str) :
  blank content -> In line (split newline content) -> blank line.
Proof.
  unfold blank. rewrite !rstrip_nil_iff, !forallb_forall.
  intros H Hl c Hc. apply H. eapply split_In; eauto.
Qed.

Lemma flat_map_nil {A B : Type} (f : A -> list B) (l : list A) :
  (forall a, In a l -> f a = []) -> flat_map f l = [].
Proof.
  induction l as [|a l IH]; simpl; intros H; [reflexivity|].
  rewrite H, IH; auto.
Qed.

Lemma markdown_to_blocks_blank (content : str) :
  blank content -> markdown_to_blocks content = [].
Proof.
  intros H. rewrite markdown_to_blocks_lines. apply flat_map_nil.
  intros l Hl. apply line_blocks_blank. eapply blank_split; eauto.
Qed.

Lemma line_blocks_view (line : str) :
  line_view (rstrip line) (line_blocks line).
Proof.
  unfold line_blocks, md_line. cbv zeta.
  destruct (rstrip line) as [|x r]; [now constructor|].
  cbv iota. assert (Hne : x :: r <> []) by discriminate.
  revert Hne. generalize (x :: r) as s. intros s Hne.
  destruct (startswith _ (lit "# ")) eqn:H1;
    [apply startswith_iff in H1; now constructor|].
  destruct (startswith _ (lit "## ")) eqn:H2;
    [apply startswith_iff in H2; now constructor|].
  destruct (startswith _ (lit "### ")) eqn:H3;
    [apply startswith_iff in H3; now constructor|].
  destruct (startswith _ (lit "- ")) eqn:H4;
    [apply startswith_iff in H4; now constructor|].
  destruct (startswith _ (lit "* ")) eqn:H5;
    [apply startswith_iff in H5; now apply view_star|].
  cbn [orb].
  destruct (startswith _ (lit "```")) eqn:H6; [now constructor|].
  apply view_par.
  - assumption.
  - unfold has_prefix, prefixes. cbn [existsb].
    now rewrite H1, H2, H3, H4, H5, H6.
Qed.

End Parsing.

(** ** Claims about markdown_to_blocks *)

Section ParsingClaims.

(** Replace a string known to start with a prefix by the prefix followed by
    the rest, so that the tests of the loop compute. *)
Ltac with_prefix H :=
  apply startswith_iff in H;
  match type of H with
  | ?s = _ =>
      let c := fresh "c" in
      let E := fresh "E" in
      remember (from _ s) as c eqn:E in H; clear E; subst s
  end.

Lemma fence_line (blocks : list json) (line : str) :
  startswith (rstrip line) (lit "```") = true -> md_line blocks line = blocks.
Proof.
  unfold md_line. cbv zeta. generalize (rstrip line) as s. intros s H.
  now with_prefix H.
Qed.

Lemma heading_3_line (blocks : list json) (line : str) :
  startswith (rstrip line) (lit "### ") = true ->
  md_line blocks line
  = blocks ++ [block (lit "heading_3") (from 4 (rstrip line))].
Proof.
  unfold md_line. cbv zeta. generalize (rstrip line) as s. intros s H.
  now with_prefix H.
Qed.

Lemma heading_2_line (blocks : list json) (line : str) :
  startswith (rstrip line) (lit "## ") = true ->
  md_line blocks line
  = blocks ++ [block (lit "heading_2") (from 3 (rstrip line))].
Proof.
  unfold md_line. cbv zeta. generalize (rstrip line) as s. intros s H.
  now with_prefix H.
Qed.

Lemma heading_1_line (blocks : list json) (line : str) :
  startswith (rstrip line) (lit "# ") = true ->
  md_line blocks line
  = blocks ++ [block (lit "heading_1") (from 2 (rstrip line))].
Proof.
  unfold md_line. cbv zeta. generalize (rstrip line) as s. intros s H.
  now with_prefix H.
Qed.

Lemma spec_order_agrees (blocks : list json) (line : str) :
  md_line_spec blocks line = md_line blocks line.
Proof.
  unfold md_line_spec, md_line. cbv zeta.
  destruct (rstrip line) as [|x r]; [reflexivity|]. cbv iota.
  generalize (x :: r) as s. intros s.
  destruct (startswith s (lit "# ")) eqn:H1.
  { now with_prefix H1. }
  destruct (startswith s (lit "## ")) eqn:H2.
  { now with_prefix H2. }
  reflexivity.
Qed.

Lemma no_prefix_stripped (line : str) :
  has_prefix line = false -> has_prefix (rstrip line) = false.
Proof.
  unfold has_prefix. intros H.
  destruct (existsb (startswith (rstrip line)) prefixes) eqn:E;
    [|reflexivity].
  apply existsb_exists in E. destruct E as (p & Hp & Hs).
  apply startswith_rstrip in Hs.
  assert (existsb (startswith line) prefixes = true)
    by (apply existsb_exists; eauto).
  congruence.
Qed.

Lemma paragraph_line (blocks : list json) (line : str) :
  ~ blank line -> has_prefix (rstrip line) = false ->
  md_line blocks line = blocks ++ [block (lit "paragraph") (rstrip line)].
Proof.
  unfold blank, md_line, has_prefix, prefixes. cbv zeta. cbn [existsb].
  destruct (rstrip line) as [|x r]; [congruence|]. cbv iota.
  generalize (x :: r) as s. intros s _ H.
  repeat (apply orb_false_iff in H; destruct H as [? H]).
  repeat match goal with E : startswith _ _ = false |- _ =>
           rewrite E; clear E end.
  reflexivity.
Qed.

End ParsingClaims.

(** C3. A line whose stripped text begins with the triple backtick adds no
    block: the loop leaves [blocks] as it was. Lines are classified one by
    one, so the blocks of a document are those of its part before a newline
    followed by those of the part after it; a fence line alone has no
    blocks, and a part [a], a fence line and a part [b] have the blocks of
    [a] followed by those of [b]. The fenced one-liner of the specification
    parses to the single paragraph [print(1)]. *)
Theorem fence_lines_dropped :
  (forall blocks line,
      startswith (rstrip line) (lit "```") = true ->
      md_line blocks line = blocks)
  /\ (forall a b,
         markdown_to_blocks (a ++ newline :: b)
         = markdown_to_blocks a ++ markdown_to_blocks b)
  /\ (forall fence,
         ~ In newline fence ->
         startswith (rstrip fence) (lit "```") = true ->
         markdown_to_blocks fence = [])
  /\ (forall a fence b,
         ~ In newline fence ->
         startswith (rstrip fence) (lit "```") = true ->
         markdown_to_blocks (a ++ newline :: fence ++ newline :: b)
         = markdown_to_blocks a ++ markdown_to_blocks b)
  /\ markdown_to_blocks
       (lit "```python" ++ newline :: lit "print(1)" ++ newline :: lit "```")
     = [block (lit "paragraph") (lit "print(1)")].
Proof.
  assert (F : forall fence,
             ~ In newline fence ->
             startswith (rstrip fence) (lit "```") = true ->
             markdown_to_blocks fence = []).
  { intros fence Hnl Hf. rewrite (markdown_to_blocks_line fence Hnl).
    unfold line_blocks. now apply fence_line. }
  split; [exact fence_line|]. split; [exact markdown_to_blocks_app|].
  split; [exact F|]. split; [|reflexivity].
  intros a fence b Hnl Hf.
  change (newline :: fence ++ newline :: b)
    with (newline :: (fence ++ newline :: b)).
  now rewrite !markdown_to_blocks_app, (F fence Hnl Hf).
Qed.

Lemma fence_lines_dropped_witness :
  md_line [block (lit "paragraph") (lit "a")] (lit "```python  ")
  = [block (lit "paragraph") (lit "a")]
  /\ markdown_to_blocks (lit "```text") = []
  /\ markdown_to_blocks
       (lit "# a" ++ newline :: lit "``` " ++ newline :: lit "b")
     = markdown_to_blocks (lit "# a") ++ markdown_to_blocks (lit "b").
Proof.
  destruct fence_lines_dropped as (L & _ & F & S & _).
  split; [|split].
  - apply L. reflexivity.
  - apply F; [vm_compute; intuition discriminate | reflexivity].
  - apply S; [vm_compute; intuition discriminate | reflexivity].
Defined.

(** C4. Heading classification does not depend on the order of the three
    tests: the loop body with ["### "] tested before ["## "] before ["# "]
    computes what the source computes; and a stripped line beginning with
    ["### "], ["## "] or ["# "] adds exactly one heading_3, heading_2 or
    heading_1 block whose content is the text after the prefix. *)
Theorem heading_precedence (blocks : list json) (line : str) :
  md_line_spec blocks line = md_line blocks line
  /\ (startswith (rstrip line) (lit "### ") = true ->
      md_line blocks line
      = blocks ++ [block (lit "heading_3") (from 4 (rstrip line))])
  /\ (startswith (rstrip line) (lit "## ") = true ->
      md_line blocks line
      = blocks ++ [block (lit "heading_2") (from 3 (rstrip line))])
  /\ (startswith (rstrip line) (lit "# ") = true ->
      md_line blocks line
      = blocks ++ [block (lit "heading_1") (from 2 (rstrip line))]).
Proof.
  split; [apply spec_order_agrees|].
  split; [apply heading_3_line|].
  split; [apply heading_2_line | apply heading_1_line].
Qed.

Lemma heading_precedence_witness :
  md_line [] (lit "### Deep  ") = [block (lit "heading_3") (lit "Deep")]
  /\ md_line [] (lit "## Mid") = [block (lit "heading_2") (lit "Mid")]
  /\ md_line [] (lit "# Top") = [block (lit "heading_1") (lit "Top")].
Proof.
  split; [|split].
  - apply (proj1 (proj2 (heading_precedence [] (lit "### Deep  ")))).
    reflexivity.
  - apply (proj1 (proj2 (proj2 (heading_precedence [] (lit "## Mid"))))).
    reflexivity.
  - apply (proj2 (proj2 (proj2 (heading_precedence [] (lit "# Top"))))).
    reflexivity.
Defined.

(** C7. The empty document has no blocks; a document all of whose lines are
    blank has no blocks; a blank line leaves the blocks built so far as
    they were, and a document with a blank line between two parts has the
    blocks of the first part followed by those of the second. *)
Theorem blank_lines_dropped :
  markdown_to_blocks [] = []
  /\ (forall content,
         Forall blank (split newline content) ->
         markdown_to_blocks content = [])
  /\ (forall blocks line, blank line -> md_line blocks line = blocks)
  /\ (forall a line b,
         blank line ->
         markdown_to_blocks (a ++ newline :: line ++ newline :: b)
         = markdown_to_blocks a ++ markdown_to_blocks b).
Proof.
  split; [reflexivity|]. split; [|split].
  - intros content H. rewrite markdown_to_blocks_lines.
    apply flat_map_nil. intros l Hl. apply line_blocks_blank.
    rewrite Forall_forall in H. auto.
  - intros blocks line H. rewrite md_line_app, line_blocks_blank by assumption.
    apply app_nil_r.
  - intros a line b H.
    change (newline :: line ++ newline :: b)
      with (newline :: (line ++ newline :: b)).
    rewrite !markdown_to_blocks_app.
    now rewrite (markdown_to_blocks_blank line H).
Qed.

Lemma blank_lines_dropped_witness :
  markdown_to_blocks (lit "  " ++ newline :: newline :: [9]) = []
  /\ md_line [block (lit "paragraph") (lit "a")] (lit "   ")
     = [block (lit "paragraph") (lit "a")]
  /\ markdown_to_blocks (lit "# Title" ++ newline :: [] ++ newline :: lit "Body")
     = markdown_to_blocks (lit "# Title") ++ markdown_to_blocks (lit "Body").
Proof.
  split; [|split].
  - apply (proj1 (proj2 blank_lines_dropped)).
    vm_compute. repeat constructor.
  - apply (proj1 (proj2 (proj2 blank_lines_dropped))). reflexivity.
  - apply (proj2 (proj2 (proj2 blank_lines_dropped))). reflexivity.
Defined.

(** C8. A line that is not blank and begins with none of the recognized
    prefixes (whether the prefixes are looked for in the line as given or
    in its stripped text) adds exactly one paragraph block, whose single
    run holds the line with its trailing whitespace stripped. *)
Theorem plain_line_is_paragraph (blocks : list json) (line : str) :
  ~ blank line ->
  has_prefix line = false \/ has_prefix (rstrip line) = false ->
  md_line blocks line = blocks ++ [block (lit "paragraph") (rstrip line)].
Proof.
  intros Hb [H|H]; apply paragraph_line; auto using no_prefix_stripped.
Qed.

Lemma plain_line_is_paragraph_witness :
  md_line [] (lit "  #Body text  ")
  = [] ++ [block (lit "paragraph") (rstrip (lit "  #Body text  "))].
Proof.
  apply plain_line_is_paragraph.
  - unfold blank. vm_compute. discriminate.
  - left. reflexivity.
Defined.

(** C9. Every block [markdown_to_blocks] emits is of type heading_1,
    heading_2, heading_3, bulleted_list_item or paragraph, and holds exactly
    one run, whose content is not empty, has no newline and no trailing
    whitespace. *)
Theorem emitted_blocks_invariant (content : str) (b : json) :
  In b (markdown_to_blocks content) ->
  exists ty c,
    b = block ty c /\ In ty emitted_kinds
    /\ c <> [] /\ ~ In newline c /\ rstrip c = c.
Proof.
  rewrite markdown_to_blocks_lines, in_flat_map.
  intros (line & Hline & Hb).
  assert (Hnl : ~ In newline (rstrip line)).
  { intros H. apply rstrip_In in H.
    pose proof (split_no_sep newline content) as F.
    rewrite Forall_forall in F. exact (F _ Hline H). }
  pose proof (rstrip_idem line) as Hs.
  assert (Hsuf : forall p c,
             rstrip line = p ++ c -> rstrip p <> p ->
             c <> [] /\ ~ In newline c /\ rstrip c = c).
  { intros p c E Hp. rewrite E in Hs, Hnl. split; [|split].
    - intros ->. rewrite app_nil_r in Hs. contradiction.
    - intros H. apply Hnl, in_or_app. now right.
    - eapply rstrip_suffix; eauto. }
  pose proof (line_blocks_view line) as V.
  inversion V as [E B|E B|c E B|c E B|c E B|c E B|c E B|E1 E2 B];
    rewrite <- B in Hb; simpl in Hb; try contradiction;
    destruct Hb as [<-|[]]; do 2 eexists;
    (split; [reflexivity|]); (split; [unfold emitted_kinds; simpl; tauto|]);
    try (eapply Hsuf; [exact E | vm_compute; discriminate]).
  split; [assumption|]. split; assumption.
Qed.

Lemma emitted_blocks_invariant_witness :
  exists ty c,
    block (lit "bulleted_list_item") (lit "item") = block ty c
    /\ In ty emitted_kinds /\ c <> [] /\ ~ In newline c /\ rstrip c = c.
Proof.
  apply (emitted_blocks_invariant (lit "# T" ++ newline :: lit "* item  ")).
  vm_compute. right. left. reflexivity.
Defined.

(** ** blocks_to_markdown, block by block *)

Lemma traverse_app {A B : Type} (f : A -> option B) (l1 l2 : list A) :
  traverse f (l1 ++ l2)
  = (a <- traverse f l1 ;; b <- traverse f l2 ;; Some (a ++ b)).
Proof.
  induction l1 as [|x l1 IH]; simpl.
  - now destruct (traverse f l2).
  - destruct (f x); [|reflexivity]. rewrite IH.
    destruct (traverse f l1); [|reflexivity].
    now destruct (traverse f l2).
Qed.

Lemma traverse_map_str {A : Type} (f : A -> str) (l : list A) :
  traverse as_str (map (fun a => JStr (f a)) l) = Some (map f l).
Proof. induction l as [|a l IH]; simpl; [reflexivity | now rewrite IH]. Qed.

Lemma runs_plain_text (runs : list json) :
  forallb run_shape runs = true ->
  traverse (fun t => get t (lit "plain_text") (JStr [])) runs
  = Some (map (fun t => JStr (plain t)) runs).
Proof.
  induction runs as [|t runs IH]; simpl; [reflexivity|].
  rewrite andb_true_iff. intros [Ht Hr]. rewrite (IH Hr).
  destruct t as [| | | | | |d]; try discriminate.
  unfold get, plain, run_shape in *.
  destruct (Dict.lookup (lit "plain_text") d) as [[| | | | | |]|];
    try discriminate; reflexivity.
Qed.

(** The text of an array of runs: their plain texts, one after the other. *)
Lemma extract_text_runs (runs : list json) :
  forallb run_shape runs = true ->
  extract_text (JList runs) = Some (List.concat (map plain runs)).
Proof.
  intros H. unfold extract_text. cbn [iterate].
  now rewrite (runs_plain_text runs H), traverse_map_str.
Qed.

(** A run without [plain_text] adds nothing to the text. *)
Lemma extract_text_no_plain_text (runs runs' : list json) (t : dict) :
  Dict.lookup (lit "plain_text") t = None ->
  extract_text (JList (runs ++ JDict t :: runs'))
  = extract_text (JList (runs ++ runs')).
Proof.
  intros H. unfold extract_text. cbn [iterate].
  rewrite !traverse_app. cbn [traverse]. unfold get at 2. rewrite H.
  destruct (traverse _ runs) as [a|]; [|reflexivity].
  destruct (traverse _ runs') as [b|]; [|reflexivity].
  rewrite !traverse_app. cbn [traverse as_str].
  destruct (traverse as_str a) as [sa|]; [|reflexivity].
  destruct (traverse as_str b) as [sb|]; [|reflexivity].
  now rewrite !concat_app.
Qed.

Lemma body_text_missing (d : dict) (ty : str) :
  missing d ty (lit "rich_text") -> body_text (JDict d) ty = Some [].
Proof.
  unfold missing, body_text, get.
  destruct (Dict.lookup ty d) as [[| | | | | |body]|]; try contradiction.
  - now intros ->.
  - reflexivity.
Qed.

Lemma body_text_shape (d : dict) (ty : str) :
  match Dict.lookup ty d with
  | None => true
  | Some body => body_shape body
  end = true ->
  exists text, body_text (JDict d) ty = Some text.
Proof.
  unfold body_text, get.
  destruct (Dict.lookup ty d) as [body|]; [|now exists []].
  unfold body_shape. destruct body as [| | | | | |b]; try discriminate.
  destruct (Dict.lookup (lit "rich_text") b) as [[| | | | |runs|]|];
    try discriminate; [|now exists []].
  intros H. rewrite (extract_text_runs runs H). eauto.
Qed.

Section RenderingFacts.

Variable format_value : json -> str.

(** Take the branches of the [if] chain on [bt] one kind at a time. *)
Ltac by_kind bt tac :=
  repeat match goal with
         | |- context [if is_str bt ?k then _ else _] =>
             lazymatch goal with
             | |- context [if is_str bt _ then _ else
                             if is_str bt k then _ else _] => fail
             | _ => destruct (is_str bt k) eqn:?; [tac|]
             end
         end.

Ltac by_option :=
  repeat match goal with
         | |- context [match ?e with Some _ => _ | None => _ end] =>
             destruct e
         end.

Lemma md_block_app (lines : list str) (b : json) :
  md_block format_value lines b
  = (new <- md_block format_value [] b ;; Some (lines ++ new)).
Proof.
  unfold md_block.
  destruct (get b (lit "type") (JStr [])) as [bt|]; [|reflexivity].
  by_kind bt ltac:(by_option; reflexivity).
  now rewrite app_nil_r.
Qed.

Lemma fold_md_block_none (blocks : list json) :
  fold_left (fun acc block => lines <- acc ;; md_block format_value lines block)
            blocks None = None.
Proof. induction blocks; simpl; auto. Qed.

Lemma fold_md_block (blocks : list json) (lines : list str) :
  fold_left (fun acc block => lines <- acc ;; md_block format_value lines block)
            blocks (Some lines)
  = (new <- md_blocks format_value blocks ;; Some (lines ++ new)).
Proof.
  unfold md_blocks.
  revert lines; induction blocks as [|b blocks IH]; intros lines; simpl.
  - now rewrite app_nil_r.
  - rewrite (md_block_app lines b).
    destruct (md_block format_value [] b) as [new|];
      [|now rewrite fold_md_block_none].
    cbn [app]. rewrite (IH (lines ++ new)), (IH new).
    destruct (fold_left _ blocks (Some [])) as [rest|]; [|reflexivity].
    now rewrite app_assoc.
Qed.

Lemma md_blocks_cons (b : json) (blocks : list json) :
  md_blocks format_value (b :: blocks)
  = (new <- md_block format_value [] b ;;
     rest <- md_blocks format_value blocks ;; Some (new ++ rest)).
Proof.
  unfold md_blocks at 1. simpl.
  destruct (md_block format_value [] b) as [new|];
    [apply fold_md_block | apply fold_md_block_none].
Qed.

Lemma md_blocks_app (bs bs' : list json) :
  md_blocks format_value (bs ++ bs')
  = (ls <- md_blocks format_value bs ;;
     ls' <- md_blocks format_value bs' ;; Some (ls ++ ls')).
Proof.
  induction bs as [|b bs IH].
  - simpl. now destruct (md_blocks format_value bs').
  - simpl app. rewrite !md_blocks_cons, IH.
    destruct (md_block format_value [] b); [|reflexivity].
    destruct (md_blocks format_value bs); [|reflexivity].
    destruct (md_blocks format_value bs'); [|reflexivity].
    now rewrite app_assoc.
Qed.

(** A record of an unrecognized type leaves [lines] as they were. *)
Lemma md_block_unrecognized (lines : list str) (d : dict) :
  recognized (type_of d) = false ->
  md_block format_value lines (JDict d) = Some lines.
Proof.
  unfold recognized, kinds, md_block, get, type_of. cbn [existsb].
  destruct (Dict.lookup (lit "type") d) as [t|]; intros H;
    repeat (apply orb_false_iff in H; destruct H as [? H]);
    repeat match goal with E : is_str _ _ = false |- _ =>
             rewrite E; clear E end;
    reflexivity.
Qed.

(** A record of the documented shape renders without raising. *)
Lemma md_block_shape (b : json) :
  block_shape b = true -> exists new, md_block format_value [] b = Some new.
Proof.
  destruct b as [| | | | | |d]; try discriminate.
  unfold block_shape.
  destruct (recognized (type_of d)) eqn:R;
    [|intros _; rewrite md_block_unrecognized by assumption; eauto].
  unfold type_of in R. unfold md_block, get.
  destruct (Dict.lookup (lit "type") d) as [[| | | | ty | |]|];
    try discriminate R.
  rewrite R. clear R. cbn [is_str].
  repeat match goal with
         | |- context [if Str.eqb ty ?k then _ else _] =>
             lazymatch goal with
             | |- context [if Str.eqb ty _ then _ else
                             if Str.eqb ty k then _ else _] => fail
             | _ =>
                 let E := fresh "E" in
                 destruct (Str.eqb ty k) eqn:E;
                 [apply str_eqb_eq in E; subst ty; intros H;
                  destruct (body_text_shape d _ H) as [text Ht];
                  rewrite Ht|]
             end
         end; eauto.
  - destruct (Dict.lookup (lit "code") d) as [[| | | | | |body]|];
      try discriminate H;
      [destruct (Dict.lookup (lit "language") body)|]; cbn; eauto.
  - destruct (Dict.lookup (lit "to_do") d) as [[| | | | | |body]|];
      try discriminate H;
      [destruct (Dict.lookup (lit "checked") body)|]; cbn; eauto.
Qed.

Lemma md_blocks_shape (blocks : list json) :
  forallb block_shape blocks = true ->
  exists lines, md_blocks format_value blocks = Some lines.
Proof.
  induction blocks as [|b blocks IH]; [now exists []|].
  cbn [forallb]. rewrite andb_true_iff. intros [Hb Hr].
  destruct (md_block_shape b Hb) as [new Hn], (IH Hr) as [rest Hrest].
  rewrite md_blocks_cons, Hn, Hrest. eauto.
Qed.

Lemma md_block_no_language (lines : list str) (d : dict) :
  is_str (type_of d) (lit "code") = true ->
  missing d (lit "code") (lit "language") ->
  md_block format_value lines (JDict d)
  = (text <- body_text (JDict d) (lit "code") ;;
     Some (lines ++ [lit "```" ++ newline :: text ++ newline :: lit "```"])).
Proof.
  unfold type_of, missing, md_block, get.
  destruct (Dict.lookup (lit "type") d) as [[| | | | ty | |]|];
    try discriminate. cbn [is_str].
  intros E. apply str_eqb_eq in E. subst ty. cbn [Str.eqb lit].
  change (Str.eqb (lit "code") (lit "paragraph")) with false.
  cbv iota.
  destruct (Dict.lookup (lit "code") d) as [[| | | | | |body]|];
    try contradiction.
  - intros ->. now destruct (body_text _ _).
  - intros _. now destruct (body_text _ _).
Qed.

Lemma md_block_no_checked (lines : list str) (d : dict) :
  is_str (type_of d) (lit "to_do") = true ->
  missing d (lit "to_do") (lit "checked") ->
  md_block format_value lines (JDict d)
  = (text <- body_text (JDict d) (lit "to_do") ;;
     Some (lines ++ [lit "- [ ] " ++ text])).
Proof.
  unfold type_of, missing, md_block, get.
  destruct (Dict.lookup (lit "type") d) as [[| | | | ty | |]|];
    try discriminate. cbn [is_str].
  intros E. apply str_eqb_eq in E. subst ty. cbn [Str.eqb lit].
  change (Str.eqb (lit "to_do") (lit "paragraph")) with false.
  cbv iota.
  destruct (Dict.lookup (lit "to_do") d) as [[| | | | | |body]|];
    try contradiction.
  - intros ->. now destruct (body_text _ _).
  - intros _. now destruct (body_text _ _).
Qed.

(** C6. [blocks_to_markdown] does not fail on records of the documented
    shape; a record whose type is none of the nine rendered kinds adds no
    line; and an absent field stands for its default: no [type] gives no
    line, no sub-object or no [rich_text] gives the empty text, a run
    without [plain_text] adds nothing to the text, no [language] gives a
    bare opening fence and no [checked] gives an open box. *)
Theorem blocks_to_markdown_degrades :
  (forall blocks,
      forallb block_shape blocks = true ->
      exists text, blocks_to_markdown format_value blocks = Some text)
  /\ (forall pre d post,
         recognized (type_of d) = false ->
         blocks_to_markdown format_value (pre ++ JDict d :: post)
         = blocks_to_markdown format_value (pre ++ post))
  /\ (forall lines d,
         Dict.lookup (lit "type") d = None ->
         md_block format_value lines (JDict d) = Some lines)
  /\ (forall d ty,
         missing d ty (lit "rich_text") -> body_text (JDict d) ty = Some [])
  /\ (forall runs t runs',
         Dict.lookup (lit "plain_text") t = None ->
         extract_text (JList (runs ++ JDict t :: runs'))
         = extract_text (JList (runs ++ runs')))
  /\ (forall lines d,
         is_str (type_of d) (lit "code") = true ->
         missing d (lit "code") (lit "language") ->
         md_block format_value lines (JDict d)
         = (text <- body_text (JDict d) (lit "code") ;;
            Some (lines
                    ++ [lit "```" ++ newline :: text ++ newline :: lit "```"])))
  /\ (forall lines d,
         is_str (type_of d) (lit "to_do") = true ->
         missing d (lit "to_do") (lit "checked") ->
         md_block format_value lines (JDict d)
         = (text <- body_text (JDict d) (lit "to_do") ;;
            Some (lines ++ [lit "- [ ] " ++ text]))).
Proof.
  repeat split.
  - intros blocks H. unfold blocks_to_markdown.
    destruct (md_blocks_shape blocks H) as [lines ->]. eauto.
  - intros pre d post H. unfold blocks_to_markdown.
    change (JDict d :: post) with ([JDict d] ++ post).
    rewrite !md_blocks_app, md_blocks_cons.
    rewrite (md_block_unrecognized [] d H). cbn.
    destruct (md_blocks format_value pre); [|reflexivity].
    now destruct (md_blocks format_value post).
  - intros lines d H. apply md_block_unrecognized.
    unfold type_of. now rewrite H.
  - exact body_text_missing.
  - intros runs t runs'. apply extract_text_no_plain_text.
  - exact md_block_no_language.
  - exact md_block_no_checked.
Qed.

End RenderingFacts.

Lemma blocks_to_markdown_degrades_witness :
  let f : json -> str := fun _ => lit "?" in
  let todo :=
    JDict [(lit "type", JStr (lit "to_do"));
           (lit "to_do",
            JDict [(lit "rich_text",
                    JList [JDict [(lit "plain_text", JStr (lit "Buy milk"))];
                           JDict []])])] in
  let table := [(lit "type", JStr (lit "table")); (lit "table", JNull)] in
  (exists text, blocks_to_markdown f [todo; JDict table; JDict []] = Some text)
  /\ blocks_to_markdown f ([todo] ++ JDict table :: [todo])
     = blocks_to_markdown f ([todo] ++ [todo])
  /\ md_block f [lit "a"] (JDict [(lit "id", JStr (lit "b1"))]) = Some [lit "a"]
  /\ body_text (JDict [(lit "type", JStr (lit "quote"))]) (lit "quote") = Some []
  /\ extract_text (JList ([JDict [(lit "plain_text", JStr (lit "a"))]]
                            ++ JDict [] :: []))
     = extract_text (JList ([JDict [(lit "plain_text", JStr (lit "a"))]] ++ []))
  /\ md_block f [] (JDict [(lit "type", JStr (lit "code"))])
     = (text <- body_text (JDict [(lit "type", JStr (lit "code"))]) (lit "code") ;;
        Some ([] ++ [lit "```" ++ newline :: text ++ newline :: lit "```"]))
  /\ md_block f [] (JDict [(lit "type", JStr (lit "to_do")); (lit "to_do", JDict [])])
     = (text <- body_text (JDict [(lit "type", JStr (lit "to_do"));
                                  (lit "to_do", JDict [])]) (lit "to_do") ;;
        Some ([] ++ [lit "- [ ] " ++ text])).
Proof.
  intros f todo table.
  destruct (blocks_to_markdown_degrades f) as (T & U & D1 & D2 & D3 & D4 & D5).
  split; [apply T; reflexivity|].
  split; [apply U; reflexivity|].
  split; [apply D1; reflexivity|].
  split; [apply D2; exact I|].
  split; [apply D3; reflexivity|].
  split; [apply D4; [reflexivity | exact I] | apply D5; reflexivity].
Defined.

(** ** extract_title *)

Section Title.

Lemma extract_title_skip (pre rest : dict) :
  Forall passed_over pre -> extract_title (pre ++ rest) = extract_title rest.
Proof.
  induction pre as [|[key value] pre IH]; [reflexivity|].
  intros H. inversion H as [|? ? [Hr Ht] Hpre]; subst.
  cbn [app extract_title]. cbn [snd] in Hr, Ht.
  destruct value as [| | | | | |d]; try discriminate Hr.
  unfold title_typed in Ht. unfold get.
  destruct (Dict.lookup (lit "type") d) as [ty|].
  - rewrite Ht. auto.
  - cbn [is_str]. auto.
Qed.

Lemma extract_title_here (key : str) (value : json) (post : dict) :
  title_typed value = true ->
  extract_title ((key, value) :: post)
  = (title <- get value (lit "title") (JList []) ;; extract_text title).
Proof.
  destruct value as [| | | | | |d]; try discriminate.
  unfold title_typed. cbn [extract_title]. unfold get.
  destruct (Dict.lookup (lit "type") d) as [ty|]; [|discriminate].
  now intros ->.
Qed.

(** C5. The scan follows the order of the entries: when the entries before
    a title-typed property are records of another type, the result is the
    text of that property's [title] array, which for an array of runs is
    their plain texts one after the other; and over records none of which
    is title-typed, the empty map among them, the result is
    ["Untitled"]. *)
Theorem extract_title_first :
  (forall pre key value post,
      Forall passed_over pre ->
      title_typed value = true ->
      extract_title (pre ++ (key, value) :: post)
      = (title <- get value (lit "title") (JList []) ;; extract_text title))
  /\ (forall pre key d runs post,
         Forall passed_over pre ->
         title_typed (JDict d) = true ->
         Dict.lookup (lit "title") d = Some (JList runs) ->
         forallb run_shape runs = true ->
         extract_title (pre ++ (key, JDict d) :: post)
         = Some (List.concat (map plain runs)))
  /\ (forall properties,
         Forall passed_over properties ->
         extract_title properties = Some (lit "Untitled")).
Proof.
  split; [|split].
  - intros pre key value post Hpre Ht.
    now rewrite extract_title_skip, extract_title_here.
  - intros pre key d runs post Hpre Ht Hl Hr.
    rewrite extract_title_skip, extract_title_here by assumption.
    unfold get. rewrite Hl. now apply extract_text_runs.
  - intros properties H.
    rewrite <- (app_nil_r properties). now rewrite extract_title_skip.
Qed.

End Title.

Lemma extract_title_first_witness :
  let status :=
    (lit "Status", JDict [(lit "type", JStr (lit "select"))]) in
  let name :=
    [(lit "type", JStr (lit "title"));
     (lit "title", JList [JDict [(lit "plain_text", JStr (lit "Report"))]])] in
  extract_title ([status] ++ (lit "Name", JDict name) :: [status])
  = (title <- get (JDict name) (lit "title") (JList []) ;; extract_text title)
  /\ extract_title ([status] ++ (lit "Name", JDict name) :: [])
     = Some (lit "Report")
  /\ extract_title [status; (lit "Owner", JDict [])] = Some (lit "Untitled").
Proof.
  intros status name.
  destruct extract_title_first as (A & B & C).
  split; [|split].
  - apply A; [repeat constructor | reflexivity].
  - apply (B [status] (lit "Name") name
             [JDict [(lit "plain_text", JStr (lit "Report"))]] []);
      [repeat constructor | reflexivity | reflexivity | reflexivity].
  - apply C. repeat constructor.
Defined.

(** ** Property coercion *)

Section Coercion.

(** Assigning under a new key appends the entry. *)
Lemma set_fresh (k : str) (v : json) (d : dict) :
  ~ In k (Dict.keys d) -> Dict.set k v d = d ++ [(k, v)].
Proof.
  induction d as [|[k' v'] d IH]; simpl; [reflexivity|].
  intros H. destruct (Str.eqb k' k) eqn:E.
  - apply str_eqb_eq in E. tauto.
  - rewrite IH by tauto. reflexivity.
Qed.

Lemma set_keys (k : str) (v : json) (d : dict) (k0 : str) :
  In k0 (Dict.keys (Dict.set k v d)) -> k0 = k \/ In k0 (Dict.keys d).
Proof.
  induction d as [|[k' v'] d IH]; simpl.
  - intros [<-|[]]. now left.
  - destruct (Str.eqb k' k); simpl; intros [<-|H]; auto.
    destruct (IH H); auto.
Qed.

Lemma coerce_item_skip (acc : dict) (key : str) (value : json) :
  coercible value = false -> coerce_item acc (key, value) = acc.
Proof. destruct value; simpl; congruence. Qed.

Lemma coerce_item_keys (acc : dict) (key : str) (value : json) (k : str) :
  In k (Dict.keys (coerce_item acc (key, value))) ->
  In k (Dict.keys acc) \/ (k = key /\ coercible value = true).
Proof.
  destruct value; cbn [coerce_item coercible]; auto;
    try destruct acc; intros H; apply set_keys in H; tauto.
Qed.

Lemma fold_coerce_filter (props acc : dict) :
  fold_left coerce_item props acc
  = fold_left coerce_item
      (filter (fun item => coercible (snd item)) props) acc.
Proof.
  revert acc; induction props as [|[key value] props IH]; intros acc;
    [reflexivity|].
  cbn [fold_left filter snd]. destruct (coercible value) eqn:C.
  - cbn [fold_left]. apply IH.
  - rewrite coerce_item_skip by assumption. apply IH.
Qed.

Lemma fold_coerce_keys (props acc : dict) (k : str) :
  In k (Dict.keys (fold_left coerce_item props acc)) ->
  In k (Dict.keys acc)
  \/ exists value, In (k, value) props /\ coercible value = true.
Proof.
  revert acc; induction props as [|[key value] props IH]; intros acc;
    cbn [fold_left]; [auto|].
  intros H. apply IH in H. destruct H as [H|(v & Hv & Hc)].
  - apply coerce_item_keys in H. destruct H as [H|[-> Hc]]; [auto|].
    right. exists value. simpl. auto.
  - right. exists v. simpl. auto.
Qed.

(** The loop, started on [acc], appends the closed form. *)
Lemma fold_coerce_closed (props acc : dict) :
  NoDup (Dict.keys acc ++ Dict.keys props) ->
  fold_left coerce_item props acc
  = acc ++ coerced (match acc with [] => true | _ :: _ => false end) props.
Proof.
  revert acc; induction props as [|[key value] props IH]; intros acc H;
    cbn [fold_left coerced]; [now rewrite app_nil_r|].
  cbn [Dict.keys map fst] in H. fold (Dict.keys props) in H.
  assert (Hfresh : ~ In key (Dict.keys acc)).
  { apply NoDup_remove_2 in H. intros K. apply H, in_or_app. now left. }
  assert (Hnext : forall v,
             NoDup (Dict.keys (acc ++ [(key, v)]) ++ Dict.keys props)).
  { intros v. unfold Dict.keys. rewrite map_app, <- app_assoc. exact H. }
  assert (Hskip : NoDup (Dict.keys acc ++ Dict.keys props))
    by now apply NoDup_remove_1 in H.
  assert (Hne : forall v,
             match acc ++ [(key, v)] with [] => true | _ :: _ => false end
             = false) by (intros; now destruct acc).
  destruct value; cbn [coerce_item]; try (now apply IH);
    try (rewrite set_fresh, IH, Hne, <- app_assoc by auto; reflexivity).
  destruct acc; rewrite set_fresh, IH, <- app_assoc by auto; reflexivity.
Qed.

(** A map with distinct keys holds one value per key. *)
Lemma entry_unique (d : dict) (k : str) (v v' : json) :
  NoDup (Dict.keys d) -> In (k, v) d -> In (k, v') d -> v = v'.
Proof.
  induction d as [|[k0 v0] d IH]; [intros _ []|].
  cbn [Dict.keys map fst]. intros Hnd Hv Hv'.
  inversion Hnd as [|? ? Hfresh Hrest]; subst.
  assert (Hkey : forall x, In (k0, x) d -> False).
  { intros x Hx. apply Hfresh. change k0 with (fst (k0, x)).
    now apply in_map. }
  destruct Hv as [Hv|Hv], Hv' as [Hv'|Hv'].
  - congruence.
  - inversion Hv; subst. exfalso; eauto.
  - inversion Hv'; subst. exfalso; eauto.
  - now apply IH.
Qed.

End Coercion.

(** C1, as the code has it. Over a map with distinct keys the loop writes
    one property for each key whose value is a string, a boolean or a
    number, in the order of the map: a string becomes the title when nothing
    has been written before it and a rich_text property otherwise, a
    boolean a checkbox, an int or a float a number. So when the first key
    holds a string it is the title and every later string is rich_text;
    [{"Name": "Task A", "Done": true, "Priority": 2}] gives a title, a
    checkbox and a number. *)
Theorem notion_props_positional :
  (forall props,
      NoDup (Dict.keys props) -> notion_props props = coerced true props)
  /\ (forall key s rest,
         NoDup (Dict.keys ((key, JStr s) :: rest)) ->
         notion_props ((key, JStr s) :: rest)
         = (key, JDict [(lit "title", content_of (JStr s))])
             :: coerced false rest)
  /\ notion_props [(lit "Name", JStr (lit "Task A"));
                   (lit "Done", JBool true);
                   (lit "Priority", JInt 2)]
     = [(lit "Name", JDict [(lit "title", content_of (JStr (lit "Task A")))]);
        (lit "Done", JDict [(lit "checkbox", JBool true)]);
        (lit "Priority", JDict [(lit "number", JInt 2)])].
Proof.
  assert (A : forall props,
             NoDup (Dict.keys props) -> notion_props props = coerced true props)
    by (intros props H; exact (fold_coerce_closed props [] H)).
  split; [exact A|]. split; [|reflexivity].
  intros key s rest H. now rewrite A.
Qed.

Lemma notion_props_positional_witness :
  let props :=
    [(lit "Tags", JList []); (lit "Name", JStr (lit "Task A"));
     (lit "Note", JStr (lit "soon")); (lit "Score", JFloat PrimFloat.one)] in
  notion_props props = coerced true props
  /\ notion_props ((lit "Name", JStr (lit "Task A")) :: [(lit "Note", JStr (lit "soon"))])
     = (lit "Name", JDict [(lit "title", content_of (JStr (lit "Task A")))])
         :: coerced false [(lit "Note", JStr (lit "soon"))].
Proof.
  intros props. destruct notion_props_positional as (A & B & _).
  split.
  - apply A. vm_compute.
    repeat (constructor; [simpl; intuition discriminate|]). constructor.
  - apply B. vm_compute.
    repeat (constructor; [simpl; intuition discriminate|]). constructor.
Defined.

(** The first key is no title when its value is not a string: here it is
    written as a checkbox and the map has no title at all; and a later
    string is the title, not a rich_text property, when nothing was written
    before it. *)
Lemma first_key_not_always_title :
  notion_props [(lit "Done", JBool true); (lit "Name", JStr (lit "Task A"))]
  = [(lit "Done", JDict [(lit "checkbox", JBool true)]);
     (lit "Name", JDict [(lit "rich_text", content_of (JStr (lit "Task A")))])]
  /\ notion_props [(lit "Tags", JList []); (lit "Name", JStr (lit "Task A"))]
     = [(lit "Name", JDict [(lit "title", content_of (JStr (lit "Task A")))])].
Proof. split; reflexivity. Qed.

(** C10. A key whose value is neither a string, a boolean nor a number
    changes nothing: the loop over [props] writes what it writes over
    [props] without those entries, and, the keys being distinct, no such
    key is among the properties written. *)
Theorem uncoercible_keys_omitted (props : dict) :
  notion_props props
  = notion_props (filter (fun item => coercible (snd item)) props)
  /\ (forall key value,
         NoDup (Dict.keys props) ->
         In (key, value) props ->
         coercible value = false ->
         ~ In key (Dict.keys (notion_props props))).
Proof.
  split; [apply fold_coerce_filter|].
  intros key value Hnd Hin Hc Hk.
  apply fold_coerce_keys in Hk. destruct Hk as [[]|(v & Hv & Hcv)].
  assert (v = value) by (eapply entry_unique; eauto). congruence.
Qed.

Lemma uncoercible_keys_omitted_witness :
  notion_props [(lit "Name", JStr (lit "Task A"));
                (lit "Tags", JList [JStr (lit "x")]);
                (lit "Done", JBool false)]
  = notion_props [(lit "Name", JStr (lit "Task A")); (lit "Done", JBool false)]
  /\ ~ In (lit "Tags")
        (Dict.keys (notion_props [(lit "Name", JStr (lit "Task A"));
                                  (lit "Tags", JList [JStr (lit "x")]);
                                  (lit "Done", JBool false)])).
Proof.
  split.
  - exact (proj1 (uncoercible_keys_omitted
                    [(lit "Name", JStr (lit "Task A"));
                     (lit "Tags", JList [JStr (lit "x")]);
                     (lit "Done", JBool false)])).
  - apply (proj2 (uncoercible_keys_omitted _)
             (lit "Tags") (JList [JStr (lit "x")])).
    + vm_compute.
      repeat (constructor; [simpl; intuition discriminate|]). constructor.
    + right. left. reflexivity.
    + reflexivity.
Defined.

(** ** The round trip through the service *)

Section RoundTrip.

Variable format_value : json -> str.

Lemma line_blocks_rstrip (line : str) :
  line_blocks (rstrip line) = line_blocks line.
Proof. unfold line_blocks, md_line. now rewrite rstrip_idem. Qed.

(** What is left of a stripped line after a prefix that ends in a space. *)
Lemma content_stripped (s p c : str) :
  rstrip s = s -> s = p ++ c -> rstrip p <> p -> c <> [] /\ rstrip c = c.
Proof.
  intros Hs -> Hp. split.
  - intros ->. now rewrite app_nil_r in Hs.
  - eapply rstrip_suffix; eauto.
Qed.

Lemma render_view (line : str) :
  ~ In newline line ->
  line_round_trip format_value line = Some []
  \/ exists l, line_round_trip format_value line = Some [l] /\ fixed_line format_value l.
Proof.
  intros Hnl.
  assert (Hs : ~ In newline (rstrip line))
    by (intros H; now apply rstrip_In in H).
  assert (Hself : forall bs,
             bs = line_blocks line ->
             md_blocks format_value (map returned bs) = Some [rstrip line] ->
             exists l, line_round_trip format_value line = Some [l] /\ fixed_line format_value l).
  { intros bs -> H. exists (rstrip line).
    unfold fixed_line, line_round_trip.
    now rewrite line_blocks_rstrip, H. }
  pose proof (line_blocks_view line) as V.
  inversion V as [E B|E B|c E B|c E B|c E B|c E B|c E B|E1 E2 B];
    [left; unfold line_round_trip; now rewrite <- B ..
    | right | right | right | right | right | right];
    try (apply (Hself _ B); rewrite ?E; cbn; now rewrite ?app_nil_r).
  destruct (content_stripped (rstrip line) (lit "* ") c) as [Hc Hr];
    [apply rstrip_idem | assumption | vm_compute; discriminate |].
  assert (Hd : rstrip (lit "- " ++ c) = lit "- " ++ c).
  { rewrite rstrip_app, Hr. now destruct c. }
  exists (lit "- " ++ c). unfold fixed_line, line_round_trip.
  split; [|split].
  - rewrite <- B. cbn. now rewrite app_nil_r.
  - rewrite E in Hs. intros [H|[H|H]]; try discriminate H.
    apply Hs. cbn. auto.
  - unfold line_blocks, md_line. rewrite Hd. cbn. now rewrite app_nil_r.
Qed.

Lemma render_lines (lines : list str) :
  Forall (fun l => ~ In newline l) lines ->
  exists out,
    md_blocks format_value (map returned (flat_map line_blocks lines))
    = Some out
    /\ Forall (fixed_line format_value) out.
Proof.
  induction 1 as [|line lines Hl _ (out & Ho & Hf)]; [now exists []|].
  cbn [flat_map]. rewrite map_app, md_blocks_app, Ho.
  fold (line_round_trip format_value line).
  destruct (render_view line Hl) as [->|(l & -> & Hfix)].
  - now exists out.
  - exists (l :: out). split; [reflexivity | now constructor].
Qed.

Lemma render_fixed (out : list str) :
  Forall (fixed_line format_value) out ->
  md_blocks format_value (map returned (flat_map line_blocks out)) = Some out.
Proof.
  induction 1 as [|l out [_ Hl] _ IH]; [reflexivity|].
  unfold line_round_trip in Hl.
  cbn [flat_map]. now rewrite map_app, md_blocks_app, Hl, IH.
Qed.

(** C2, as the code has it. When the blocks of a document come back from
    the service, each run carrying under [plain_text] the content it was
    sent with, the rendered text is a fixed point: parsing it, passing the
    blocks through the service and rendering them gives the same text. *)
Theorem round_trip_idempotent (doc : str) :
  exists r1,
    round_trip format_value doc = Some r1
    /\ round_trip format_value r1 = Some r1.
Proof.
  unfold round_trip, blocks_to_markdown.
  rewrite markdown_to_blocks_lines.
  destruct (render_lines (split newline doc) (split_no_sep newline doc))
    as (out & -> & Hf).
  exists (join [newline] out). split; [reflexivity|].
  rewrite markdown_to_blocks_lines.
  destruct out as [|l out]; [reflexivity|].
  rewrite split_join, render_fixed; [reflexivity | assumption | discriminate |].
  revert Hf. apply Forall_impl. unfold fixed_line. tauto.
Qed.

End RoundTrip.

(** Without the service in between, the renderer finds no [plain_text] in
    the runs the parser wrote: the heading is rendered without its text,
    and the text so rendered parses and renders to something else. *)
Lemma direct_round_trip_not_idempotent :
  blocks_to_markdown (fun _ => []) (markdown_to_blocks (lit "# T"))
  = Some (lit "# ")
  /\ blocks_to_markdown (fun _ => []) (markdown_to_blocks (lit "# ")) = Some []
  /\ lit "# " <> [].
Proof. repeat split; try reflexivity. discriminate. Qed.

(** ** Further properties of markdown_to_blocks *)

Lemma rstrip_app_space (s w : str) :
  forallb isspace w = true -> rstrip (s ++ w) = rstrip s.
Proof.
  intros H. apply rstrip_nil_iff in H. now rewrite rstrip_app, H.
Qed.

Lemma rstrip_app_text (p c : str) :
  ~ blank c -> rstrip (p ++ c) = p ++ rstrip c.
Proof.
  unfold blank. intros H. rewrite rstrip_app.
  destruct (rstrip c); [congruence | reflexivity].
Qed.

Lemma line_blocks_space (line w : str) :
  forallb isspace w = true -> line_blocks (line ++ w) = line_blocks line.
Proof.
  intros H. unfold line_blocks, md_line. now rewrite rstrip_app_space.
Qed.

(** Text added after the last newline extends the last line. *)
Lemma split_app_tail (sep : char) (a w : str) :
  ~ In sep w ->
  exists ls l,
    split sep a = ls ++ [l] /\ split sep (a ++ w) = ls ++ [l ++ w].
Proof.
  intros Hw. induction a as [|c a (ls & l & E & E')]; simpl.
  - exists [], []. now rewrite split_single.
  - destruct (c =? sep).
    + exists ([] :: ls), l. now rewrite E, E'.
    + rewrite E, E'. destruct ls as [|l0 ls]; simpl.
      * now exists [], (c :: l).
      * now exists ((c :: l0) :: ls), l.
Qed.

Lemma markdown_to_blocks_space (a w : str) :
  forallb isspace w = true ->
  markdown_to_blocks (a ++ w) = markdown_to_blocks a.
Proof.
  revert a; induction w as [|c w IH]; intros a H; [now rewrite app_nil_r|].
  cbn [forallb] in H. apply andb_true_iff in H. destruct H as [Hc Hw].
  change (a ++ c :: w) with (a ++ [c] ++ w).
  rewrite app_assoc, IH by assumption.
  destruct (N.eq_dec c newline) as [->|Hne].
  - rewrite markdown_to_blocks_app. cbn. apply app_nil_r.
  - destruct (split_app_tail newline a [c]) as (ls & l & E & E').
    { intros [H|[]]. congruence. }
    rewrite !markdown_to_blocks_lines, E, E', !flat_map_app. cbn [flat_map].
    rewrite line_blocks_space; [reflexivity|].
    cbn. now rewrite Hc.
Qed.

(** X1. Whitespace at the end of a line, a carriage return among it, does
    not change the blocks: neither before a newline nor at the end of the
    document. *)
Theorem trailing_whitespace_ignored (a w b : str) :
  forallb isspace w = true ->
  markdown_to_blocks (a ++ w ++ newline :: b)
  = markdown_to_blocks (a ++ newline :: b)
  /\ markdown_to_blocks (a ++ w) = markdown_to_blocks a.
Proof.
  intros H. split; [|now apply markdown_to_blocks_space].
  rewrite app_assoc, !markdown_to_blocks_app.
  now rewrite markdown_to_blocks_space.
Qed.

Lemma trailing_whitespace_ignored_witness :
  markdown_to_blocks (lit "# Title" ++ [13] ++ newline :: lit "Body")
  = markdown_to_blocks (lit "# Title" ++ newline :: lit "Body")
  /\ markdown_to_blocks (lit "# Title" ++ [13])
     = markdown_to_blocks (lit "# Title").
Proof. apply trailing_whitespace_ignored. reflexivity. Defined.

(** X2. A marker with nothing but whitespace after it is no heading and no
    list item: the line is a paragraph that holds the bare marker. *)
Theorem bare_marker_is_paragraph (blocks : list json) (marker w : str) :
  In marker bare_markers ->
  forallb isspace w = true ->
  md_line blocks (marker ++ w) = blocks ++ [block (lit "paragraph") marker].
Proof.
  intros Hm Hw. unfold md_line. rewrite rstrip_app_space by assumption.
  unfold bare_markers in Hm. cbn [In] in Hm.
  repeat (destruct Hm as [<-|Hm]; [reflexivity|]). destruct Hm.
Qed.

Lemma bare_marker_is_paragraph_witness :
  md_line [] (lit "##" ++ lit "  ") = [] ++ [block (lit "paragraph") (lit "##")].
Proof.
  apply bare_marker_is_paragraph; [right; left; reflexivity | reflexivity].
Defined.

(** X3. A line that begins with a marker and has text after it adds one
    block of the marker's type, whose content is what follows the marker
    without its trailing whitespace, leading whitespace kept; so a star
    item and a dash item with the same text give the same block. *)
Theorem marker_line (blocks : list json) (marker ty c : str) :
  In (marker, ty) markers ->
  ~ blank c ->
  md_line blocks (marker ++ c) = blocks ++ [block ty (rstrip c)].
Proof.
  intros Hm Hc. unfold md_line. rewrite rstrip_app_text by assumption.
  unfold markers in Hm. cbn [In] in Hm.
  repeat (destruct Hm as [[= <- <-]|Hm]; [reflexivity|]). destruct Hm.
Qed.

Lemma marker_line_witness :
  md_line [] (lit "* " ++ lit "  milk ")
  = [] ++ [block (lit "bulleted_list_item") (rstrip (lit "  milk "))].
Proof.
  apply marker_line.
  - do 4 right. left. reflexivity.
  - unfold blank. vm_compute. discriminate.
Defined.

Lemma line_blocks_length (line : str) :
  List.length (line_blocks line) = if emits line then 1%nat else 0%nat.
Proof.
  unfold emits. pose proof (line_blocks_view line) as V.
  inversion V as [E B|E B|c E B|c E B|c E B|c E B|c E B|E1 E2 B];
    try (rewrite E; reflexivity).
  - rewrite E. now destruct (rstrip line).
  - unfold has_prefix, prefixes in E2. cbn [existsb] in E2.
    repeat (apply orb_false_iff in E2; destruct E2 as [? E2]).
    destruct (rstrip line); [congruence|].
    now replace (startswith (c :: s) (lit "```")) with false.
Qed.

(** X4. [markdown_to_blocks] gives one block for each line that is neither
    blank nor a fence, so never more blocks than the document has lines. *)
Theorem block_count (content : str) :
  List.length (markdown_to_blocks content)
  = List.length (filter emits (split newline content))
  /\ (List.length (markdown_to_blocks content)
      <= List.length (split newline content))%nat.
Proof.
  assert (E : List.length (markdown_to_blocks content)
              = List.length (filter emits (split newline content))).
  { rewrite markdown_to_blocks_lines.
    induction (split newline content) as [|l ls IH]; [reflexivity|].
    cbn [flat_map filter]. rewrite length_app, line_blocks_length, IH.
    now destruct (emits l). }
  split; [exact E|]. rewrite E. apply filter_length_le.
Qed.

(** ** Further properties of blocks_to_markdown *)

Lemma lookup_type (d : dict) (ty : str) :
  type_of d = JStr ty -> ty <> [] ->
  Dict.lookup (lit "type") d = Some (JStr ty).
Proof.
  unfold type_of. destruct (Dict.lookup (lit "type") d); congruence.
Qed.

Lemma kinds_recognized (ty : str) :
  In ty kinds -> recognized (JStr ty) = true.
Proof.
  unfold kinds. cbn [In]. intros H.
  repeat (destruct H as [<-|H]; [reflexivity|]). destruct H.
Qed.

(** The text of a shaped block, with the defaults of the source. *)
Lemma body_text_of (d : dict) (ty : str) :
  match Dict.lookup ty d with
  | None => true
  | Some body => body_shape body
  end = true ->
  body_text (JDict d) ty = Some (text_of d ty).
Proof.
  unfold body_text, text_of, field, get.
  destruct (Dict.lookup ty d) as [body|]; [|reflexivity].
  unfold body_shape. destruct body as [| | | | | |b]; try discriminate.
  destruct (Dict.lookup (lit "rich_text") b) as [[| | | | |runs|]|];
    try discriminate; [|reflexivity].
  apply extract_text_runs.
Qed.

Lemma shaped_body (d : dict) (ty : str) :
  block_shape (JDict d) = true -> type_of d = JStr ty -> In ty kinds ->
  match Dict.lookup ty d with
  | None => true
  | Some body => body_shape body
  end = true.
Proof.
  intros Hs Ht Hk. unfold block_shape in Hs.
  rewrite (lookup_type d ty Ht) in Hs
    by (intros ->; revert Hk; vm_compute; intuition discriminate).
  now rewrite (kinds_recognized ty Hk) in Hs.
Qed.

Section RenderingTable.

Variable format_value : json -> str.

(** X5. The rendering of a block of the documented shape, kind by kind: a
    paragraph, heading, list item or quote is its prefix followed by the
    text of the block (a numbered item is always ["1. "]); a code block is
    the fence with its language, the text and the closing fence on three
    lines; a to-do item is checked when [checked] is true in a condition. *)
Theorem rendering_table (lines : list str) (d : dict) (ty : str) :
  block_shape (JDict d) = true ->
  type_of d = JStr ty ->
  (forall p,
      In (ty, p) prefixed_kinds ->
      md_block format_value lines (JDict d)
      = Some (lines ++ [p ++ text_of d ty]))
  /\ (ty = lit "code" ->
      md_block format_value lines (JDict d)
      = Some (lines
                ++ [lit "```"
                      ++ fmt format_value
                           (field d ty (lit "language") (JStr []))
                      ++ newline :: text_of d ty ++ newline :: lit "```"]))
  /\ (ty = lit "to_do" ->
      md_block format_value lines (JDict d)
      = Some (lines
                ++ [lit "- ["
                      ++ (if truthy (field d ty (lit "checked") (JBool false))
                          then lit "x" else lit " ")
                      ++ lit "] " ++ text_of d ty])).
Proof.
  intros Hs Ht.
  assert (Hget : ty <> [] ->
                 get (JDict d) (lit "type") (JStr []) = Some (JStr ty))
    by (intros H; unfold get; now rewrite (lookup_type d ty Ht H)).
  assert (Htext : In ty kinds -> body_text (JDict d) ty = Some (text_of d ty))
    by (intros H; apply body_text_of; now apply shaped_body).
  split; [|split].
  - intros p Hp. unfold prefixed_kinds in Hp. cbn [In] in Hp.
    unfold md_block.
    repeat (destruct Hp as [[= <- <-]|Hp];
            [rewrite Hget by discriminate;
             rewrite Htext by (vm_compute; tauto); reflexivity|]).
    destruct Hp.
  - intros ->. unfold md_block.
    rewrite Hget by discriminate.
    change (is_str (JStr (lit "code")) (lit "code")) with true.
    cbv iota.
    assert (B := shaped_body d (lit "code") Hs Ht ltac:(vm_compute; tauto)).
    rewrite (Htext ltac:(vm_compute; tauto)). unfold field, get.
    destruct (Dict.lookup (lit "code") d) as [[| | | | | |body]|];
      try discriminate B; [|reflexivity].
    now destruct (Dict.lookup (lit "language") body).
  - intros ->. unfold md_block.
    rewrite Hget by discriminate.
    change (is_str (JStr (lit "to_do")) (lit "to_do")) with true.
    cbv iota.
    assert (B := shaped_body d (lit "to_do") Hs Ht ltac:(vm_compute; tauto)).
    rewrite (Htext ltac:(vm_compute; tauto)). unfold field, get.
    destruct (Dict.lookup (lit "to_do") d) as [[| | | | | |body]|];
      try discriminate B; [|reflexivity].
    now destruct (Dict.lookup (lit "checked") body).
Qed.

End RenderingTable.

Lemma rendering_table_witness :
  (forall p,
      In (lit "numbered_list_item", p) prefixed_kinds ->
      md_block (fun _ => []) [lit "a"]
        (JDict [(lit "type", JStr (lit "numbered_list_item"));
                (lit "numbered_list_item",
                 JDict [(lit "rich_text",
                         JList [JDict [(lit "plain_text", JStr (lit "two"))]])])])
      = Some ([lit "a"]
                ++ [p ++ text_of
                           [(lit "type", JStr (lit "numbered_list_item"));
                            (lit "numbered_list_item",
                             JDict [(lit "rich_text",
                                     JList [JDict [(lit "plain_text",
                                                    JStr (lit "two"))]])])]
                           (lit "numbered_list_item")]))
  /\ md_block (fun _ => []) []
       (JDict [(lit "type", JStr (lit "to_do"));
               (lit "to_do", JDict [(lit "checked", JStr (lit "no"))])])
     = Some ([] ++ [lit "- [" ++ lit "x" ++ lit "] " ++ []]).
Proof.
  split.
  - apply (rendering_table (fun _ => [])); reflexivity.
  - apply (rendering_table (fun _ => []) []
             [(lit "type", JStr (lit "to_do"));
              (lit "to_do", JDict [(lit "checked", JStr (lit "no"))])]
             (lit "to_do")); reflexivity.
Defined.

Section RenderingErrors.

Variable format_value : json -> str.

Lemma md_blocks_raises (blocks : list json) (b : json) :
  In b blocks -> md_block format_value [] b = None ->
  md_blocks format_value blocks = None.
Proof.
  intros Hin Hb. apply in_split in Hin. destruct Hin as (l1 & l2 & ->).
  rewrite md_blocks_app, md_blocks_cons, Hb.
  now destruct (md_blocks format_value l1).
Qed.

(** X6. One malformed block makes the whole rendering raise, wherever it
    stands: a block that is no record, or a block of a rendered kind whose
    sub-object is there and is no record. *)
Theorem malformed_block_raises (blocks : list json) (b : json) :
  In b blocks ->
  is_record b = false
  \/ (exists d ty body,
         b = JDict d /\ Dict.lookup (lit "type") d = Some (JStr ty)
         /\ In ty kinds /\ Dict.lookup ty d = Some body
         /\ is_record body = false) ->
  blocks_to_markdown format_value blocks = None.
Proof.
  intros Hin Hbad. unfold blocks_to_markdown.
  rewrite (md_blocks_raises blocks b Hin); [reflexivity|].
  destruct Hbad as [Hb|(d & ty & body & -> & Ht & Hk & Hl & Hb)].
  - now destruct b.
  - unfold md_block, get. rewrite Ht.
    unfold kinds in Hk. cbn [In] in Hk.
    repeat (destruct Hk as [<-|Hk];
            [unfold body_text, get; rewrite Hl; now destruct body|]).
    destruct Hk.
Qed.




End RenderingErrors.

Lemma malformed_block_raises_witness :
  blocks_to_markdown (fun _ => [])
    [JDict [(lit "type", JStr (lit "quote"))]; JNull] = None
  /\ blocks_to_markdown (fun _ => [])
       [JDict [(lit "type", JStr (lit "paragraph")); (lit "paragraph", JNull)]]
     = None.
Proof.
  split.
  - apply (malformed_block_raises (fun _ => []) _ JNull).
    + right. left. reflexivity.
    + left. reflexivity.
  - apply (malformed_block_raises (fun _ => []) _
             (JDict [(lit "type", JStr (lit "paragraph"));
                     (lit "paragraph", JNull)])).
    + left. reflexivity.
    + right. exists [(lit "type", JStr (lit "paragraph")); (lit "paragraph", JNull)],
        (lit "paragraph"), JNull.
      repeat split. left. reflexivity.
Defined.

(** ** The round trip, line by line *)

Lemma join_split (sep : char) (s : str) : join [sep] (split sep s) = s.
Proof.
  induction s as [|c s IH]; [reflexivity|]. cbn [split].
  pose proof (split_not_nil sep s) as Hne.
  destruct (split sep s) as [|l ls]; [congruence|].
  destruct (c =? sep) eqn:E.
  - apply N.eqb_eq in E. subst c.
    change (join [sep] ([] :: l :: ls)) with (sep :: join [sep] (l :: ls)).
    now rewrite IH.
  - destruct ls as [|l' ls].
    + cbn [join] in IH |- *. now rewrite IH.
    + change (join [sep] ((c :: l) :: l' :: ls))
        with (c :: join [sep] (l :: l' :: ls)).
      now rewrite IH.
Qed.

Section RoundTripLines.

Variable format_value : json -> str.

Lemma line_round_trip_normal (line : str) :
  line_round_trip format_value line = Some (normal_line line).
Proof.
  unfold line_round_trip, normal_line. cbv zeta.
  pose proof (line_blocks_view line) as V.
  inversion V as [E B|E B|c E B|c E B|c E B|c E B|c E B|E1 E2 B].
  - now rewrite E.
  - apply startswith_iff in E. rewrite E. reflexivity.
  - rewrite E. cbn. now rewrite app_nil_r.
  - rewrite E. cbn. now rewrite app_nil_r.
  - rewrite E. cbn. now rewrite app_nil_r.
  - rewrite E. cbn. now rewrite app_nil_r.
  - rewrite E. cbn. now rewrite app_nil_r.
  - unfold has_prefix, prefixes in E2. cbn [existsb] in E2.
    repeat (apply orb_false_iff in E2; destruct E2 as [? E2]).
    destruct (rstrip line) as [|x r]; [congruence|].
    repeat match goal with H : startswith _ _ = false |- _ =>
             rewrite H; clear H end.
    cbn. now rewrite app_nil_r.
Qed.

Lemma round_trip_lines (lines : list str) :
  md_blocks format_value (map returned (flat_map line_blocks lines))
  = Some (flat_map normal_line lines).
Proof.
  induction lines as [|line lines IH]; [reflexivity|].
  cbn [flat_map]. rewrite map_app, md_blocks_app, IH.
  fold (line_round_trip format_value line).
  now rewrite line_round_trip_normal.
Qed.

(** X8. What the round trip through the service keeps of a document: its
    lines in order, without the blank lines and the fences, each without
    its trailing whitespace, a star item written as a dash item. *)
Theorem round_trip_normal_form (doc : str) :
  round_trip format_value doc
  = Some (join [newline] (flat_map normal_line (split newline doc))).
Proof.
  unfold round_trip, blocks_to_markdown.
  now rewrite markdown_to_blocks_lines, round_trip_lines.
Qed.

(** X9. A document comes back as it was sent when each of its lines is
    kept as it is: not blank, no fence, no star item, no trailing
    whitespace. *)
Theorem round_trip_identity (doc : str) :
  Forall (fun l => normal_line l = [l]) (split newline doc) ->
  round_trip format_value doc = Some doc.
Proof.
  intros H. unfold round_trip, blocks_to_markdown.
  rewrite markdown_to_blocks_lines, round_trip_lines.
  replace (flat_map normal_line (split newline doc)) with (split newline doc).
  - now rewrite join_split.
  - induction H as [|l ls Hl _ IH]; [reflexivity|].
    cbn [flat_map]. now rewrite Hl, <- IH.
Qed.

End RoundTripLines.

Lemma round_trip_identity_witness :
  round_trip (fun _ => [])
    (lit "# Title" ++ newline :: lit "- one" ++ newline :: lit "  text")
  = Some (lit "# Title" ++ newline :: lit "- one" ++ newline :: lit "  text").
Proof.
  apply round_trip_identity. vm_compute. repeat constructor.
Defined.

(** ** Further properties of extract_text and extract_title *)

(** X10. The text of an array is the text of a first part followed by the
    text of the rest, and extracting raises when it raises on a part. *)
Theorem extract_text_app (a b : list json) :
  extract_text (JList (a ++ b))
  = (x <- extract_text (JList a) ;;
     y <- extract_text (JList b) ;; Some (x ++ y)).
Proof.
  unfold extract_text. cbn [iterate]. rewrite traverse_app.
  destruct (traverse _ a) as [pa|]; [|reflexivity].
  destruct (traverse _ b) as [pb|];
    [|now destruct (traverse as_str pa)].
  rewrite traverse_app.
  destruct (traverse as_str pa) as [sa|]; [|reflexivity].
  destruct (traverse as_str pb) as [sb|]; [|reflexivity].
  now rewrite concat_app.
Qed.

Lemma traverse_runs (runs parts : list json) (strs : list str) :
  traverse (fun t => get t (lit "plain_text") (JStr [])) runs = Some parts ->
  traverse as_str parts = Some strs ->
  forallb run_shape runs = true.
Proof.
  revert parts strs; induction runs as [|t runs IH]; intros parts strs;
    [reflexivity|].
  cbn [traverse forallb].
  destruct (get t _ _) as [v|] eqn:G; [|discriminate].
  destruct (traverse _ runs) as [ps|] eqn:T; [|discriminate].
  intros [= <-]. cbn [traverse].
  destruct (as_str v) as [s0|] eqn:A; [|discriminate].
  destruct (traverse as_str ps) as [ss|] eqn:S; [|discriminate].
  intros _. rewrite (IH ps ss eq_refl S), andb_true_r.
  destruct t as [| | | | | |d]; try discriminate G.
  unfold get in G. unfold run_shape.
  destruct (Dict.lookup (lit "plain_text") d) as [w|]; [|reflexivity].
  injection G as ->. now destruct v.
Qed.

(** X11. [extract_text] returns exactly on an array of runs, each a record
    whose [plain_text] is a string or absent, and then gives their plain
    texts one after the other; besides, it returns the empty text on the
    empty string and on the empty record. On anything else it raises. *)
Theorem extract_text_returns (x : json) (s : str) :
  extract_text x = Some s
  <-> (exists runs,
          x = JList runs /\ forallb run_shape runs = true
          /\ s = List.concat (map plain runs))
      \/ ((x = JStr [] \/ x = JDict []) /\ s = []).
Proof.
  split.
  - destruct x as [| | | |t|runs|d]; try discriminate.
    + destruct t as [|c t]; [intros [= <-]; right; auto|discriminate].
    + intros H. left. exists runs. split; [reflexivity|].
      assert (Hs : forallb run_shape runs = true).
      { unfold extract_text in H. cbn [iterate] in H.
        destruct (traverse _ runs) as [parts|] eqn:T; [|discriminate].
        destruct (traverse as_str parts) as [strs|] eqn:S; [|discriminate].
        eapply traverse_runs; eauto. }
      split; [exact Hs|]. rewrite (extract_text_runs runs Hs) in H.
      congruence.
    + destruct d as [|[k v] d]; [intros [= <-]; right; auto|discriminate].
  - intros [(runs & -> & Hs & ->)|[[->| ->] ->]];
      [now apply extract_text_runs | reflexivity | reflexivity].
Qed.

(** X12. A property declared a title whose [title] array is absent or
    empty gives the empty title, not ["Untitled"]. *)
Theorem title_without_text
  (pre : dict) (key : str) (d : dict) (post : dict) :
  Forall passed_over pre ->
  title_typed (JDict d) = true ->
  Dict.lookup (lit "title") d = None
  \/ Dict.lookup (lit "title") d = Some (JList []) ->
  extract_title (pre ++ (key, JDict d) :: post) = Some [].
Proof.
  intros Hpre Ht Hl.
  rewrite extract_title_skip, extract_title_here by assumption.
  unfold get. now destruct Hl as [-> | ->].
Qed.

Lemma title_without_text_witness :
  extract_title
    ([(lit "Status", JDict [(lit "type", JStr (lit "select"))])]
       ++ (lit "Name", JDict [(lit "type", JStr (lit "title"))]) :: [])
  = Some [].
Proof.
  apply title_without_text;
    [repeat constructor | reflexivity | left; reflexivity].
Defined.

(** X13. The scan raises on the first entry that is no record, when no
    title-typed property stands before it. *)
Theorem extract_title_raises
  (pre : dict) (key : str) (value : json) (post : dict) :
  Forall passed_over pre ->
  is_record value = false ->
  extract_title (pre ++ (key, value) :: post) = None.
Proof.
  intros Hpre Hv. rewrite extract_title_skip by assumption.
  now destruct value.
Qed.

Lemma extract_title_raises_witness :
  extract_title
    ([(lit "Status", JDict [(lit "type", JStr (lit "select"))])]
       ++ (lit "Owner", JNull)
       :: [(lit "Name", JDict [(lit "type", JStr (lit "title"))])])
  = None.
Proof.
  apply extract_title_raises; [repeat constructor | reflexivity].
Defined.

(** ** Further properties of the property coercion *)

Lemma coerced_keys (first : bool) (props : dict) :
  Dict.keys (coerced first props)
  = Dict.keys (filter (fun item => coercible (snd item)) props).
Proof.
  revert first; induction props as [|[key value] props IH]; intros first;
    [reflexivity|].
  destruct value; cbn [coerced filter snd coercible Dict.keys map fst];
    try apply IH; f_equal; apply IH.
Qed.

Lemma filter_keys_NoDup (f : str * json -> bool) (props : dict) :
  NoDup (Dict.keys props) -> NoDup (Dict.keys (filter f props)).
Proof.
  induction props as [|[key value] props IH]; [auto|].
  cbn [Dict.keys map fst filter]. intros H.
  inversion H as [|? ? Hfresh Hrest]; subst.
  destruct (f (key, value)); [|now apply IH].
  cbn [map fst]. constructor; [|now apply IH].
  intros Hin. apply Hfresh. unfold Dict.keys in Hin.
  apply in_map_iff in Hin. destruct Hin as ([k v] & <- & Hin).
  apply filter_In in Hin. apply in_map_iff. exists (k, v). tauto.
Qed.

(** X14. The properties written carry the keys of the entries that hold a
    string, a boolean or a number, in the order of the map, each once. *)
Theorem notion_props_keys (props : dict) :
  NoDup (Dict.keys props) ->
  Dict.keys (notion_props props)
  = Dict.keys (filter (fun item => coercible (snd item)) props)
  /\ NoDup (Dict.keys (notion_props props)).
Proof.
  intros H. unfold notion_props.
  rewrite (fold_coerce_closed props [] H). cbn [app].
  rewrite coerced_keys. split; [reflexivity | now apply filter_keys_NoDup].
Qed.

Lemma notion_props_keys_witness :
  Dict.keys (notion_props [(lit "Tags", JList []); (lit "Name", JStr (lit "A"));
                           (lit "Done", JBool true)])
  = Dict.keys (filter (fun item => coercible (snd item))
                 [(lit "Tags", JList []); (lit "Name", JStr (lit "A"));
                  (lit "Done", JBool true)])
  /\ NoDup (Dict.keys (notion_props [(lit "Tags", JList []);
                                     (lit "Name", JStr (lit "A"));
                                     (lit "Done", JBool true)])).
Proof.
  apply notion_props_keys. vm_compute.
  repeat (constructor; [simpl; intuition discriminate|]). constructor.
Defined.

Lemma coerced_untitled (props : dict) :
  filter titled (coerced false props) = [].
Proof.
  induction props as [|[key value] props IH]; [reflexivity|].
  destruct value; cbn [coerced]; try exact IH;
    cbn [filter]; now rewrite IH.
Qed.

Lemma coerced_titled (props : dict) :
  filter titled (coerced true props)
  = match filter (fun item => coercible (snd item)) props with
    | (key, JStr s) :: _ => [(key, JDict [(lit "title", content_of (JStr s))])]
    | _ => []
    end.
Proof.
  induction props as [|[key value] props IH]; [reflexivity|].
  destruct value; cbn [coerced filter snd coercible]; try exact IH;
    cbn [filter]; now rewrite coerced_untitled.
Qed.

(** X15. At most one property is written as a title: the first entry that
    holds a string, a boolean or a number, when it holds a string. When it
    holds a boolean or a number, or when there is none, no title is
    written. *)
Theorem at_most_one_title (props : dict) :
  NoDup (Dict.keys props) ->
  filter titled (notion_props props)
  = match filter (fun item => coercible (snd item)) props with
    | (key, JStr s) :: _ => [(key, JDict [(lit "title", content_of (JStr s))])]
    | _ => []
    end
  /\ (List.length (filter titled (notion_props props)) <= 1)%nat.
Proof.
  intros H. unfold notion_props.
  rewrite (fold_coerce_closed props [] H). cbn [app].
  rewrite coerced_titled. split; [reflexivity|].
  destruct (filter _ props) as [|[key [| | | | s | |]] rest]; simpl; lia.
Qed.

Lemma at_most_one_title_witness :
  filter titled (notion_props [(lit "Done", JBool true);
                               (lit "Name", JStr (lit "A"))])
  = []
  /\ (List.length (filter titled (notion_props [(lit "Done", JBool true);
                                                (lit "Name", JStr (lit "A"))]))
      <= 1)%nat.
Proof.
  apply (at_most_one_title [(lit "Done", JBool true);
                            (lit "Name", JStr (lit "A"))]).
  vm_compute.
  repeat (constructor; [simpl; intuition discriminate|]). constructor.
Defined.

Lemma str_eqb_refl (s : str) : Str.eqb s s = true.
Proof. now apply str_eqb_eq. Qed.

Lemma str_eqb_neq (s t : str) : s <> t -> Str.eqb s t = false.
Proof.
  intros H. destruct (Str.eqb s t) eqn:E; [|reflexivity].
  apply str_eqb_eq in E. contradiction.
Qed.

Lemma lookup_absent (key : str) (d : dict) :
  ~ In key (Dict.keys d) -> Dict.lookup key d = None.
Proof.
  induction d as [|[k v] d IH]; [reflexivity|].
  cbn [Dict.keys map fst In Dict.lookup]. intros H.
  rewrite str_eqb_neq by tauto. apply IH. tauto.
Qed.

Lemma coerced_absent (first : bool) (props : dict) (key : str) :
  ~ In key (Dict.keys props) ->
  Dict.lookup key (coerced first props) = None.
Proof.
  intros H. apply lookup_absent. rewrite coerced_keys. intros Hin.
  apply H. unfold Dict.keys in *. apply in_map_iff in Hin.
  destruct Hin as ([k v] & <- & Hin). apply filter_In in Hin.
  apply in_map_iff. exists (k, v). tauto.
Qed.

Lemma coerced_lookup (first : bool) (props : dict) (key : str) (value : json) :
  NoDup (Dict.keys props) ->
  In (key, value) props ->
  match value with
  | JStr _ =>
      Dict.lookup key (coerced first props)
      = Some (JDict [(lit "title", content_of value)])
      \/ Dict.lookup key (coerced first props)
         = Some (JDict [(lit "rich_text", content_of value)])
  | JBool _ =>
      Dict.lookup key (coerced first props)
      = Some (JDict [(lit "checkbox", value)])
  | JInt _ | JFloat _ =>
      Dict.lookup key (coerced first props)
      = Some (JDict [(lit "number", value)])
  | _ => Dict.lookup key (coerced first props) = None
  end.
Proof.
  revert first; induction props as [|[k0 v0] props IH]; intros first Hnd Hin;
    [destruct Hin|].
  cbn [Dict.keys map fst] in Hnd. inversion Hnd as [|? ? Hfresh Hrest]; subst.
  destruct Hin as [[= -> ->]|Hin].
  - destruct value; cbn [coerced Dict.lookup];
      rewrite ?str_eqb_refl; auto using coerced_absent.
    destruct first; auto.
  - assert (Hne : k0 <> key).
    { intros ->. apply Hfresh. change key with (fst (key, value)).
      now apply in_map. }
    specialize (fun f => IH f Hrest Hin).
    destruct v0; cbn [coerced Dict.lookup];
      rewrite ?(str_eqb_neq k0 key Hne); apply IH.
Qed.

(** X16. Looking a key of the map up in the properties written: a boolean
    is found as a checkbox and a number as a number, the value unchanged;
    a string is found as a title or as rich_text around the string; a key
    with any other value is not found. *)
Theorem notion_props_lookup (props : dict) (key : str) (value : json) :
  NoDup (Dict.keys props) ->
  In (key, value) props ->
  match value with
  | JStr _ =>
      Dict.lookup key (notion_props props)
      = Some (JDict [(lit "title", content_of value)])
      \/ Dict.lookup key (notion_props props)
         = Some (JDict [(lit "rich_text", content_of value)])
  | JBool _ =>
      Dict.lookup key (notion_props props)
      = Some (JDict [(lit "checkbox", value)])
  | JInt _ | JFloat _ =>
      Dict.lookup key (notion_props props)
      = Some (JDict [(lit "number", value)])
  | _ => Dict.lookup key (notion_props props) = None
  end.
Proof.
  intros Hnd Hin. unfold notion_props.
  rewrite (fold_coerce_closed props [] Hnd). cbn [app].
  now apply coerced_lookup.
Qed.

Lemma notion_props_lookup_witness :
  Dict.lookup (lit "Score")
    (notion_props [(lit "Name", JStr (lit "A")); (lit "Score", JInt (-3))])
  = Some (JDict [(lit "number", JInt (-3))]).
Proof.
  apply (notion_props_lookup
           [(lit "Name", JStr (lit "A")); (lit "Score", JInt (-3))]
           (lit "Score") (JInt (-3))).
  - vm_compute.
    repeat (constructor; [simpl; intuition discriminate|]). constructor.
  - right. left. reflexivity.
Defined.

(** ** The arguments of the tools *)

Lemma str_replace_app (old : char) (new a b : str) :
  str_replace old new (a ++ b)
  = str_replace old new a ++ str_replace old new b.
Proof. unfold str_replace. apply flat_map_app. Qed.

Lemma hyphens_gone (s : str) : ~ In hyphen (str_replace hyphen [] s).
Proof.
  induction s as [|c s IH]; [intros []|].
  unfold str_replace in *. cbn [flat_map].
  destruct (c =? hyphen) eqn:E; [exact IH|].
  apply N.eqb_neq in E. intros [H|H]; [congruence | now apply IH].
Qed.

Lemma no_hyphen_kept (s : str) :
  ~ In hyphen s -> str_replace hyphen [] s = s.
Proof.
  induction s as [|c s IH]; [reflexivity|]. intros H.
  unfold str_replace in *. cbn [flat_map].
  destruct (c =? hyphen) eqn:E.
  - apply N.eqb_eq in E. subst c. exfalso. apply H. now left.
  - cbn [app]. rewrite IH; [reflexivity|]. intros Hin. apply H. now right.
Qed.

(** X17. The id a tool works with has no hyphen; an id written with
    hyphens and the same id written without them are the same id, and an
    id without hyphens is taken as it is. An absent id is the empty id; an
    id that is no string makes the tool raise. *)
Theorem id_argument_normalized (arguments : dict) (name : str) :
  (forall id, id_argument arguments name = Some id -> ~ In hyphen id)
  /\ (forall arguments' a b,
         Dict.lookup name arguments = Some (JStr (a ++ hyphen :: b)) ->
         Dict.lookup name arguments' = Some (JStr (a ++ b)) ->
         id_argument arguments name = id_argument arguments' name)
  /\ (forall s,
         Dict.lookup name arguments = Some (JStr s) ->
         ~ In hyphen s ->
         id_argument arguments name = Some s)
  /\ (Dict.lookup name arguments = None ->
      id_argument arguments name = Some [])
  /\ (forall v,
         Dict.lookup name arguments = Some v ->
         (forall s, v <> JStr s) ->
         id_argument arguments name = None).
Proof.
  unfold id_argument, get. split; [|split; [|split; [|split]]].
  - intros id. destruct (Dict.lookup name arguments) as [[| | | |s| |]|];
      try discriminate; intros [= <-];
      first [apply hyphens_gone | exact (hyphens_gone [])].
  - intros arguments' a b -> ->. now rewrite !str_replace_app.
  - intros s -> Hs. now rewrite no_hyphen_kept.
  - now intros ->.
  - intros v -> Hv. destruct v; try reflexivity. now destruct (Hv s).
Qed.

Lemma id_argument_normalized_witness :
  id_argument [(lit "page_id", JStr (lit "1a2b" ++ hyphen :: lit "3c4d"))]
    (lit "page_id")
  = id_argument [(lit "page_id", JStr (lit "1a2b" ++ lit "3c4d"))]
      (lit "page_id")
  /\ id_argument [(lit "page_id", JStr (lit "1a2b3c4d"))] (lit "page_id")
     = Some (lit "1a2b3c4d")
  /\ id_argument [(lit "query", JStr (lit "x"))] (lit "page_id") = Some []
  /\ id_argument [(lit "page_id", JInt 7)] (lit "page_id") = None.
Proof.
  split; [|split; [|split]].
  - apply (proj1 (proj2 (id_argument_normalized _ (lit "page_id")))
             _ (lit "1a2b") (lit "3c4d")); reflexivity.
  - apply (proj1 (proj2 (proj2 (id_argument_normalized _ (lit "page_id")))));
      [reflexivity | vm_compute; intuition discriminate].
  - apply (proj1 (proj2 (proj2 (proj2
             (id_argument_normalized [(lit "query", JStr (lit "x"))]
                (lit "page_id")))))).
    reflexivity.
  - apply (proj2 (proj2 (proj2 (proj2
             (id_argument_normalized [(lit "page_id", JInt 7)]
                (lit "page_id"))))) (JInt 7)); [reflexivity | discriminate].
Defined.

(** X18. The content of a new page against the content appended to a page:
    whenever a new page gets children, appending the same content sends
    the same blocks; without a content, or with a content that is false
    and no string, the new page gets no children, where appending sends no
    block in the first case and raises in the second; a content that is
    only whitespace gives the new page an empty list of children. *)
Theorem page_children_appended (arguments : dict) :
  (forall blocks,
      page_children arguments = Some (Some blocks) ->
      appended_blocks arguments = Some blocks)
  /\ (Dict.lookup (lit "content") arguments = None ->
      page_children arguments = Some None
      /\ appended_blocks arguments = Some [])
  /\ (forall v,
         Dict.lookup (lit "content") arguments = Some v ->
         truthy v = false -> (forall s, v <> JStr s) ->
         page_children arguments = Some None
         /\ appended_blocks arguments = None)
  /\ (forall s,
         Dict.lookup (lit "content") arguments = Some (JStr s) ->
         s <> [] -> blank s ->
         page_children arguments = Some (Some [])).
Proof.
  unfold page_children, appended_blocks, get. split; [|split; [|split]].
  - intros blocks.
    destruct (Dict.lookup (lit "content") arguments) as [v|];
      [|discriminate].
    destruct (truthy v); [|discriminate].
    destruct v; try discriminate. now intros [= <-].
  - now intros ->.
  - intros v -> Hf Hv. rewrite Hf. split; [reflexivity|].
    destruct v; try reflexivity. now destruct (Hv s).
  - intros s -> Hs Hb. destruct s as [|c s]; [congruence|].
    cbn [truthy List.length Nat.eqb negb].
    now rewrite markdown_to_blocks_blank.
Qed.

Lemma page_children_appended_witness :
  appended_blocks [(lit "content", JStr (lit "# T"))]
  = Some [block (lit "heading_1") (lit "T")]
  /\ (page_children [(lit "title", JStr (lit "T"))] = Some None
      /\ appended_blocks [(lit "title", JStr (lit "T"))] = Some [])
  /\ (page_children [(lit "content", JNull)] = Some None
      /\ appended_blocks [(lit "content", JNull)] = None)
  /\ page_children [(lit "content", JStr (lit "  "))] = Some (Some []).
Proof.
  split; [|split; [|split]].
  - apply (proj1 (page_children_appended _)). reflexivity.
  - apply (proj1 (proj2 (page_children_appended _))). reflexivity.
  - apply (proj1 (proj2 (proj2 (page_children_appended _))) JNull);
      [reflexivity | reflexivity | discriminate].
  - apply (proj2 (proj2 (proj2 (page_children_appended _))) (lit "  "));
      [reflexivity | discriminate | reflexivity].
Defined.

(** ** The parser against the round trip *)

Lemma normal_line_blocks (line : str) :
  flat_map line_blocks (normal_line line) = line_blocks line.
Proof.
  assert (Hself : forall s,
             rstrip line = s -> s <> [] ->
             startswith s (lit "* ") = false ->
             startswith s (lit "```") = false ->
             flat_map line_blocks (normal_line line) = line_blocks line).
  { intros s Hs Hne H1 H2. unfold normal_line. cbv zeta. rewrite Hs.
    destruct s as [|x r]; [congruence|]. rewrite H1, H2. cbn [flat_map].
    rewrite app_nil_r, <- Hs. apply line_blocks_rstrip. }
  pose proof (line_blocks_view line) as V.
  inversion V as [E B|E B|c E B|c E B|c E B|c E B|c E B|E1 E2 B].
  - unfold normal_line. now rewrite E.
  - unfold normal_line. cbv zeta. apply startswith_iff in E. now rewrite E.
  - rewrite B. apply (Hself _ E); now rewrite ?E.
  - rewrite B. apply (Hself _ E); now rewrite ?E.
  - rewrite B. apply (Hself _ E); now rewrite ?E.
  - rewrite B. apply (Hself _ E); now rewrite ?E.
  - destruct (content_stripped (rstrip line) (lit "* ") c) as [Hc Hr];
      [apply rstrip_idem | assumption | vm_compute; discriminate |].
    unfold normal_line. cbv zeta. rewrite E.
    change (flat_map line_blocks [lit "- " ++ c]
            = [block (lit "bulleted_list_item") c]).
    cbn [flat_map]. rewrite app_nil_r.
    unfold line_blocks, md_line.
    replace (rstrip (lit "- " ++ c)) with (lit "- " ++ c)
      by (rewrite rstrip_app, Hr; now destruct c).
    reflexivity.
  - unfold has_prefix, prefixes in E2. cbn [existsb] in E2.
    repeat (apply orb_false_iff in E2; destruct E2 as [? E2]).
    rewrite B. now apply (Hself (rstrip line)).
Qed.

Lemma normal_line_no_newline (line l : str) :
  ~ In newline line -> In l (normal_line line) -> ~ In newline l.
Proof.
  intros Hnl. assert (Hs : ~ In newline (rstrip line))
    by (intros H; now apply rstrip_In in H).
  unfold normal_line. cbv zeta.
  destruct (rstrip line) as [|x r] eqn:R; [intros []|].
  destruct (startswith (x :: r) (lit "* ")) eqn:S.
  - apply startswith_iff in S. intros [<-|[]] [H|[H|H]]; try discriminate H.
    apply Hs. rewrite S. cbn. auto.
  - destruct (startswith (x :: r) (lit "```")); [intros []|].
    now intros [<-|[]].
Qed.

Section ParseAfterRoundTrip.

Variable format_value : json -> str.

(** X19. The round trip through the service loses nothing the parser
    sees: the text that comes back parses to the blocks the document
    parsed to. *)
Theorem parse_after_round_trip (doc : str) :
  exists r,
    round_trip format_value doc = Some r
    /\ markdown_to_blocks r = markdown_to_blocks doc.
Proof.
  unfold round_trip, blocks_to_markdown.
  rewrite markdown_to_blocks_lines, round_trip_lines.
  eexists. split; [reflexivity|].
  rewrite markdown_to_blocks_lines.
  pose proof (split_no_sep newline doc) as Hnl.
  assert (Hb : flat_map line_blocks
                 (flat_map normal_line (split newline doc))
               = flat_map line_blocks (split newline doc)).
  { induction (split newline doc) as [|l ls IH]; [reflexivity|].
    cbn [flat_map]. inversion Hnl; subst.
    now rewrite flat_map_app, normal_line_blocks, IH. }
  assert (Hn : Forall (fun l => ~ In newline l)
                 (flat_map normal_line (split newline doc))).
  { apply Forall_forall. intros l Hl. apply in_flat_map in Hl.
    destruct Hl as (line & Hline & Hl). rewrite Forall_forall in Hnl.
    eapply normal_line_no_newline; eauto. }
  destruct (flat_map normal_line (split newline doc)) as [|l ls] eqn:F.
  - rewrite <- Hb. reflexivity.
  - rewrite split_join by (assumption || discriminate). exact Hb.
Qed.

End ParseAfterRoundTrip.

(** X20. What the parser writes is of the shape the renderer documents,
    as it is and as it comes back from the service, so rendering it never
    raises. *)
Theorem parsed_blocks_shaped (doc : str) :
  forallb block_shape (markdown_to_blocks doc) = true
  /\ forallb block_shape (map returned (markdown_to_blocks doc)) = true.
Proof.
  rewrite markdown_to_blocks_lines.
  induction (split newline doc) as [|line lines [IH IH']];
    [split; reflexivity|].
  cbn [flat_map]. rewrite map_app, !forallb_app, IH, IH', !andb_true_r.
  pose proof (line_blocks_view line) as V.
  inversion V; split; reflexivity.
Qed.
